(** * The Sony live-view bridge: image data blocks, lazy vendor binding, copy-out

    A shallow embedding of the exported C entry points of
    [CameraControl.Devices/Sony/SonySDKHelperSimple.cpp] (the build that
    binds to [Cr_Core.dll] at run time) and of
    [CameraControl.Devices/Sony/SonySDKHelper.cpp] (the build that links
    against the vendor library), followed by the properties the design
    document states about them.

    The C++ code works on three kinds of state, all kept in one [World]:
    - the wrapper objects obtained from [new] (a finite map from address to
      object; an address outside the map is not a live object);
    - the byte memory that [memcpy] reads and writes;
    - the two file-level statics [hSonyDll] and [pGetLiveViewImage].
    Next to these the world carries a trace of every call the bridge makes
    to code outside itself ([memcpy], the platform loader, the vendor
    routine), so that "nothing was written" and "the library was not loaded
    again" are statements about the trace.

    Every entry point is a computation [M A := World -> option (A * World)];
    [None] stands for undefined behaviour (a dereference or a [delete] of
    an address that is not a live object). *)

From stdpp Require Import prelude gmap strings.

Local Open Scope N_scope.

(** ** Scalar types (lines 7-9 of both files) *)

(** [uint32_t], [uint8_t] and [int32_t].  The bridge performs no arithmetic
    on them, only the comparisons of [CopyImageData], so no wrap-around has
    to be written out. *)
Definition CrInt32u := N.
Definition CrInt8u := Byte.byte.
Definition CrError := Z.

(** A [void*] or [CrInt8u*]: an address, the null pointer being [0]. *)
Definition ptr := N.
Definition NULL : ptr := 0.

(** A module handle and a function pointer are addresses as well. *)
Definition HMODULE := N.
Definition GetLiveViewImageFunc := N.

(** The C truth value of a pointer: [if (p)]. *)
Definition truthy (p : N) : bool := negb (p =? 0).

(** [0x8001], the literal returned on lines 84, 90 and 98. *)
Definition CrError_Generic : CrError := 0x8001%Z.

(** ** The wrapper class (lines 30-39) *)

Record ImageDataBlockWrapper := mkBlock {
  frameNo : CrInt32u;
  size : CrInt32u;
  pData : ptr;
  imageSize : CrInt32u;
  timeCode : CrInt32u
}.

(** The constructor's initialiser list on line 38. *)
Definition ImageDataBlockWrapper_ctor : ImageDataBlockWrapper :=
  mkBlock 0 0 NULL 0 0.

(** [wrapper->size = size] and [wrapper->pData = data]. *)
Definition assign_size (b : ImageDataBlockWrapper) (n : CrInt32u) :=
  mkBlock (frameNo b) n (pData b) (imageSize b) (timeCode b).
Definition assign_pData (b : ImageDataBlockWrapper) (p : ptr) :=
  mkBlock (frameNo b) (size b) p (imageSize b) (timeCode b).

(** ** The world *)

(** A call that leaves the translation unit. *)
Inductive event :=
  | EvMemcpy (dest src : ptr) (count : N)
  | EvLoadLibraryA (lpLibFileName : string) (result : HMODULE)
  | EvGetProcAddress (hModule : HMODULE) (lpProcName : string)
      (result : GetLiveViewImageFunc)
  | EvGetLiveViewImage (deviceHandle imageData : ptr) (result : CrError).

Record World := mkWorld {
  blocks : gmap N ImageDataBlockWrapper;
  bytes : ptr -> CrInt8u;
  hSonyDll : HMODULE;
  pGetLiveViewImage : GetLiveViewImageFunc;
  trace : list event
}.

(** Process start: no object allocated, both statics [NULL] (lines 20 and
    27), nothing called yet.  The byte memory is whatever the host has. *)
Definition initial (mem : ptr -> CrInt8u) : World :=
  mkWorld ∅ mem NULL NULL [].

Definition with_blocks (w : World) (bs : gmap N ImageDataBlockWrapper) :=
  mkWorld bs (bytes w) (hSonyDll w) (pGetLiveViewImage w) (trace w).
Definition with_bytes (w : World) (m : ptr -> CrInt8u) :=
  mkWorld (blocks w) m (hSonyDll w) (pGetLiveViewImage w) (trace w).
Definition with_hSonyDll (w : World) (h : HMODULE) :=
  mkWorld (blocks w) (bytes w) h (pGetLiveViewImage w) (trace w).
Definition with_pGetLiveViewImage (w : World) (p : GetLiveViewImageFunc) :=
  mkWorld (blocks w) (bytes w) (hSonyDll w) p (trace w).
Definition emit (w : World) (e : event) :=
  mkWorld (blocks w) (bytes w) (hSonyDll w) (pGetLiveViewImage w)
    (trace w ++ [e]).

(** ** The monad of entry points *)

Definition M (A : Type) : Type := World -> option (A * World).

Definition ret {A} (a : A) : M A := fun w => Some (a, w).
Definition bind {A B} (m : M A) (k : A -> M B) : M B :=
  fun w => match m w with
           | Some (a, w') => k a w'
           | None => None
           end.

#[global] Instance M_ret : MRet M := @ret.
#[global] Instance M_bind : MBind M := fun A B k m => bind m k.

(** The value an entry point returns, and the world it leaves. *)
Definition returns {A} (m : M A) (w : World) : option A := fst <$> m w.
Definition leaves {A} (m : M A) (w : World) : option World := snd <$> m w.

(** *** Primitive steps *)

(** [static_cast<ImageDataBlockWrapper*>(p)->...]: reading through a
    pointer that is not a live wrapper is undefined. *)
Definition deref (p : ptr) : M ImageDataBlockWrapper :=
  fun w => match blocks w !! p with
           | Some b => Some (b, w)
           | None => None
           end.

(** Writing a field of a live wrapper back. *)
Definition assign (p : ptr) (b : ImageDataBlockWrapper) : M unit :=
  fun w => match blocks w !! p with
           | Some _ => Some (tt, with_blocks w (<[p := b]> (blocks w)))
           | None => None
           end.

(** [new ImageDataBlockWrapper()]: a fresh non-null address holding a
    constructed object.  Allocation failure in C++ raises [std::bad_alloc]
    and is not modelled: the address space is unbounded. *)
Definition new_wrapper (b : ImageDataBlockWrapper) : M ptr :=
  fun w => let p := fresh ({[NULL]} ∪ dom (blocks w) : gset N) in
           Some (p, with_blocks w (<[p := b]> (blocks w))).

(** [delete p] for non-null [p]. *)
Definition delete_wrapper (p : ptr) : M unit :=
  fun w => match blocks w !! p with
           | Some _ => Some (tt, with_blocks w (delete p (blocks w)))
           | None => None
           end.

(** The memory after [memcpy(dest, src, count)]: the [count] bytes from
    [dest] on hold what the [count] bytes from [src] on held before.  (For
    ranges that overlap C leaves the outcome open; the model reads the old
    contents.) *)
Definition memcpy_bytes (m : ptr -> CrInt8u) (dest src : ptr) (count : N)
  : ptr -> CrInt8u :=
  fun a => if (dest <=? a) && (a <? dest + count)
           then m (src + (a - dest)) else m a.

Definition memcpy (dest src : ptr) (count : N) : M unit :=
  fun w => Some (tt, emit (with_bytes w (memcpy_bytes (bytes w) dest src count))
                          (EvMemcpy dest src count)).

(** *** What lies outside the bridge *)

(** The part of the world a vendor routine may read and write: the objects
    and the byte memory.  The statics of the bridge are private to it. *)
Definition Heap : Type := gmap N ImageDataBlockWrapper * (ptr -> CrInt8u).

Definition heap (w : World) : Heap := (blocks w, bytes w).
Definition with_heap (w : World) (hp : Heap) :=
  mkWorld (hp.1) (hp.2) (hSonyDll w) (pGetLiveViewImage w) (trace w).

(** The behaviour of a routine of type [GetLiveViewImageFunc]: from the
    two opaque pointers and the heap to an error code and a heap. *)
Definition routine : Type := ptr -> ptr -> Heap -> CrError * Heap.

(** The platform as one call of the bridge finds it: what the loader
    answers for a file name ([NULL] when the library is not on the search
    path), what it answers for a symbol of a module, and the code behind a
    function pointer.  It is an argument of the fetch, not a part of the
    world, because the host may install the library between two calls. *)
Record Platform := mkPlatform {
  library_at : string -> HMODULE;
  symbol_at : HMODULE -> string -> GetLiveViewImageFunc;
  routine_at : GetLiveViewImageFunc -> routine
}.

Definition LoadLibraryA (os : Platform) (lpLibFileName : string) : M HMODULE :=
  fun w => let h := library_at os lpLibFileName in
           Some (h, emit w (EvLoadLibraryA lpLibFileName h)).

Definition GetProcAddress (os : Platform) (hModule : HMODULE)
    (lpProcName : string) : M GetLiveViewImageFunc :=
  fun w => let p := symbol_at os hModule lpProcName in
           Some (p, emit w (EvGetProcAddress hModule lpProcName p)).

(** A call of the vendor routine [f]. *)
Definition call (f : routine) (deviceHandle imageData : ptr) : M CrError :=
  fun w => let r := f deviceHandle imageData (heap w) in
           Some (r.1, emit (with_heap w (r.2))
                        (EvGetLiveViewImage deviceHandle imageData (r.1))).

(** Reads and writes of the two statics. *)
Definition get_hSonyDll : M HMODULE := fun w => Some (hSonyDll w, w).
Definition set_hSonyDll (h : HMODULE) : M unit :=
  fun w => Some (tt, with_hSonyDll w h).
Definition get_pGetLiveViewImage : M GetLiveViewImageFunc :=
  fun w => Some (pGetLiveViewImage w, w).
Definition set_pGetLiveViewImage (p : GetLiveViewImageFunc) : M unit :=
  fun w => Some (tt, with_pGetLiveViewImage w p).

(** ** Entry points of SonySDKHelperSimple.cpp *)

Module Simple.

(** Lines 42-45. *)
Definition CreateImageDataBlock : M ptr :=
  new_wrapper ImageDataBlockWrapper_ctor.

(** Lines 47-51. *)
Definition DestroyImageDataBlock (imageData : ptr) : M unit :=
  if truthy imageData then delete_wrapper imageData else ret tt.

(** Lines 53-57. *)
Definition SetImageDataBlockSize (imageData : ptr) (size : CrInt32u) : M unit :=
  if truthy imageData then
    b ← deref imageData; assign imageData (assign_size b size)
  else ret tt.

(** Lines 59-63. *)
Definition SetImageDataBlockData (imageData : ptr) (data : ptr) : M unit :=
  if truthy imageData then
    b ← deref imageData; assign imageData (assign_pData b data)
  else ret tt.

(** Lines 65-70. *)
Definition GetImageDataBlockImageSize (imageData : ptr) : M CrInt32u :=
  if truthy imageData then
    b ← deref imageData; ret (imageSize b)
  else ret 0.

(** Lines 72-77. *)
Definition GetImageDataBlockImageData (imageData : ptr) : M ptr :=
  if truthy imageData then
    b ← deref imageData; ret (pData b)
  else ret NULL.

(** Lines 101-108. *)
Definition CopyImageData (imageData destBuffer : ptr) (bufferSize : CrInt32u)
  : M unit :=
  if truthy imageData && truthy destBuffer then
    wrapper ← deref imageData;
    if truthy (pData wrapper) && (0 <? imageSize wrapper)
       && (imageSize wrapper <=? bufferSize)
    then memcpy destBuffer (pData wrapper) (imageSize wrapper)
    else ret tt
  else ret tt.

(** Lines 94-98: the call through the cached pointer, or the generic
    code. *)
Definition forward (os : Platform) (deviceHandle imageData : ptr) : M CrError :=
  p ← get_pGetLiveViewImage;
  if truthy deviceHandle && truthy imageData && truthy p then
    call (routine_at os p) deviceHandle imageData
  else ret CrError_Generic.

(** Lines 79-99.  The two early returns of lines 84 and 90 leave the
    function before [forward] is reached. *)
Definition GetLiveViewImageHelper (os : Platform) (deviceHandle imageData : ptr)
  : M CrError :=
  h ← get_hSonyDll;
  if negb (truthy h) then
    h' ← LoadLibraryA os "Cr_Core.dll";
    set_hSonyDll h';;
    if negb (truthy h') then ret CrError_Generic
    else
      p ← GetProcAddress os h' "GetLiveViewImage";
      set_pGetLiveViewImage p;;
      if negb (truthy p) then ret CrError_Generic
      else forward os deviceHandle imageData
  else forward os deviceHandle imageData.

End Simple.

(** ** Entry points of SonySDKHelper.cpp *)

(** This build declares the vendor class [SCRSDK::CrImageDataBlock] (lines
    13-34) and imports [GetLiveViewImage] (line 37); the bodies of the
    constructor, of the four methods the bridge calls and of the imported
    routine belong to the vendor library.  They are the members of an
    interface here.  An object of the class has the five declared fields
    (lines 28-32), the same five as the wrapper. *)
Class CrImageDataBlock := {
  CrImageDataBlock_ctor : ImageDataBlockWrapper;
  SetSize : ImageDataBlockWrapper -> CrInt32u -> ImageDataBlockWrapper;
  SetData : ImageDataBlockWrapper -> ptr -> ImageDataBlockWrapper;
  GetImageSize : ImageDataBlockWrapper -> CrInt32u;
  GetImageData : ImageDataBlockWrapper -> ptr;
  GetLiveViewImage : routine
}.

Module Linked.
Section WithVendor.
Context `{vendor : CrImageDataBlock}.

(** Lines 41-43. *)
Definition CreateImageDataBlock : M ptr :=
  new_wrapper CrImageDataBlock_ctor.

(** Lines 45-49. *)
Definition DestroyImageDataBlock (imageData : ptr) : M unit :=
  if truthy imageData then delete_wrapper imageData else ret tt.

(** Lines 51-55. *)
Definition SetImageDataBlockSize (imageData : ptr) (size : CrInt32u) : M unit :=
  if truthy imageData then
    b ← deref imageData; assign imageData (SetSize b size)
  else ret tt.

(** Lines 57-61. *)
Definition SetImageDataBlockData (imageData : ptr) (data : ptr) : M unit :=
  if truthy imageData then
    b ← deref imageData; assign imageData (SetData b data)
  else ret tt.

(** Lines 63-68. *)
Definition GetImageDataBlockImageSize (imageData : ptr) : M CrInt32u :=
  if truthy imageData then
    b ← deref imageData; ret (GetImageSize b)
  else ret 0.

(** Lines 70-75. *)
Definition GetImageDataBlockImageData (imageData : ptr) : M ptr :=
  if truthy imageData then
    b ← deref imageData; ret (GetImageData b)
  else ret NULL.

(** Lines 77-82. *)
Definition GetLiveViewImageHelper (deviceHandle imageData : ptr) : M CrError :=
  if truthy deviceHandle && truthy imageData then
    call GetLiveViewImage deviceHandle imageData
  else ret CrError_Generic.

(** Lines 84-94. *)
Definition CopyImageData (imageData destBuffer : ptr) (bufferSize : CrInt32u)
  : M unit :=
  if truthy imageData && truthy destBuffer then
    block ← deref imageData;
    let imageSize := GetImageSize block in
    let imagePtr := GetImageData block in
    if truthy imagePtr && (0 <? imageSize) && (imageSize <=? bufferSize)
    then memcpy destBuffer imagePtr imageSize
    else ret tt
  else ret tt.

End WithVendor.
End Linked.

(** A routine that reports success and touches nothing. *)
Definition idle : routine := fun _ _ hp => (0%Z, hp).

(** The vendor class as the wrapper mirrors it: each method is the
    corresponding field access of SonySDKHelperSimple.cpp. *)
Definition mirror (f : routine) : CrImageDataBlock := {|
  CrImageDataBlock_ctor := ImageDataBlockWrapper_ctor;
  SetSize := assign_size;
  SetData := assign_pData;
  GetImageSize := imageSize;
  GetImageData := pData;
  GetLiveViewImage := f
|}.

(** ** Host programs *)

(** The host sees nothing but the eight exported names.  A host program is
    a sequence of calls; the platform a fetch runs on is part of the call. *)
Inductive HostCall :=
  | Create
  | Destroy (h : ptr)
  | SetBlockSize (h : ptr) (n : CrInt32u)
  | SetBlockData (h : ptr) (p : ptr)
  | GetImageSizeOf (h : ptr)
  | GetImageDataOf (h : ptr)
  | Fetch (os : Platform) (deviceHandle h : ptr)
  | Copy (h : ptr) (dest : ptr) (capacity : CrInt32u).

Definition exec (c : HostCall) : M unit :=
  match c with
  | Create => Simple.CreateImageDataBlock;; ret tt
  | Destroy h => Simple.DestroyImageDataBlock h
  | SetBlockSize h n => Simple.SetImageDataBlockSize h n
  | SetBlockData h p => Simple.SetImageDataBlockData h p
  | GetImageSizeOf h => Simple.GetImageDataBlockImageSize h;; ret tt
  | GetImageDataOf h => Simple.GetImageDataBlockImageData h;; ret tt
  | Fetch os d h => Simple.GetLiveViewImageHelper os d h;; ret tt
  | Copy h d n => Simple.CopyImageData h d n
  end.

Fixpoint run (cs : list HostCall) : M unit :=
  match cs with
  | [] => ret tt
  | c :: cs' => exec c;; run cs'
  end.

(** The worlds a process can be in. *)
Definition reachable (w : World) : Prop :=
  exists mem cs, run cs (initial mem) = Some (tt, w).

(** ** Reading the trace *)

(** The bytes written through [memcpy]. *)
Definition bytes_written (t : list event) : N :=
  foldr (fun e acc => match e with EvMemcpy _ _ n => n + acc | _ => acc end) 0 t.

(** The attempts to load a library, and those that gave a module. *)
Definition is_load (e : event) : bool :=
  match e with EvLoadLibraryA _ _ => true | _ => false end.
Definition is_loaded (e : event) : bool :=
  match e with EvLoadLibraryA _ h => truthy h | _ => false end.
Definition is_vendor_call (e : event) : bool :=
  match e with EvGetLiveViewImage _ _ _ => true | _ => false end.

Fixpoint count (f : event -> bool) (t : list event) : nat :=
  match t with
  | [] => 0%nat
  | e :: t' => ((if f e then 1 else 0) + count f t')%nat
  end.

Definition load_attempts (t : list event) : nat := count is_load t.
Definition loads (t : list event) : nat := count is_loaded t.
Definition vendor_calls (t : list event) : nat := count is_vendor_call t.

(** [memcpy] was called between [w] and [w']. *)
Definition copied (w w' : World) : Prop :=
  exists dest src count, trace w' = trace w ++ [EvMemcpy dest src count].

(** What the two statics and the trace satisfy in every world a process
    reaches: no function pointer without a module, and one successful load
    in the trace exactly when a module handle is cached. *)
Definition binding_inv (w : World) : Prop :=
  (hSonyDll w = NULL -> pGetLiveViewImage w = NULL) /\
  loads (trace w) = (if truthy (hSonyDll w) then 1 else 0)%nat.

(** ** The resolution algorithm of the binding layer

    The function pointer a fetch ends up with, written after the design
    document: reuse the cached module handle when there is one; otherwise
    load the library by its file name, and on success resolve the symbol;
    a failed load or a failed resolution yields no pointer. *)
Definition resolve (os : Platform) (w : World) : GetLiveViewImageFunc :=
  if truthy (hSonyDll w) then pGetLiveViewImage w
  else
    let h := library_at os "Cr_Core.dll" in
    if truthy h then symbol_at os h "GetLiveViewImage" else NULL.

(** ** Test data *)

Module Fixtures.

(** A memory holding the byte [x2a] from address 4096 on and zero below. *)
Definition mem0 : ptr -> CrInt8u :=
  fun a => if 4096 <=? a then Byte.x2a else Byte.x00.

(** A vendor routine that reports a frame of [k] bytes in the block it is
    given and returns [code]. *)
Definition report (k : CrInt32u) (code : CrError) : routine :=
  fun _ imageData hp =>
    match hp.1 !! imageData with
    | Some b =>
        (code, (<[imageData := mkBlock 1 (size b) (pData b) k 7]> (hp.1), hp.2))
    | None => (code, hp)
    end.

(** No vendor library on the search path. *)
Definition absent : Platform :=
  mkPlatform (fun _ => NULL) (fun _ _ => NULL) (fun _ => report 0 0%Z).

(** The library loads at 7340032 and exports the routine at 7344128. *)
Definition present (k : CrInt32u) (code : CrError) : Platform :=
  mkPlatform (fun name => if String.eqb name "Cr_Core.dll" then 7340032 else NULL)
    (fun h name => if (h =? 7340032) && String.eqb name "GetLiveViewImage"
                   then 7344128 else NULL)
    (fun _ => report k code).

(** The library loads but does not export the routine. *)
Definition stripped : Platform :=
  mkPlatform (fun name => if String.eqb name "Cr_Core.dll" then 7340032 else NULL)
    (fun _ _ => NULL) (fun _ => report 0 0%Z).

(** A world with one block at address 1. *)
Definition one_block (b : ImageDataBlockWrapper) : World :=
  mkWorld {[ 1 := b ]} mem0 NULL NULL [].

End Fixtures.

(** ** Reading host programs and traces further *)

(** What every outside call of the bridge looks like: [memcpy] gets two
    non-null pointers and a positive count (lines 102-105), the loader is
    asked for the one file name of line 82 and, on a module, for the one
    symbol of line 88, and the vendor routine gets two non-null pointers
    (line 94). *)
Definition event_ok (e : event) : Prop :=
  match e with
  | EvMemcpy dest src count => dest ≠ NULL /\ src ≠ NULL /\ 0 < count
  | EvLoadLibraryA name _ => name = "Cr_Core.dll"
  | EvGetProcAddress hModule name _ =>
      hModule ≠ NULL /\ name = "GetLiveViewImage"
  | EvGetLiveViewImage deviceHandle imageData _ =>
      deviceHandle ≠ NULL /\ imageData ≠ NULL
  end.

Definition is_symbol_lookup (e : event) : bool :=
  match e with EvGetProcAddress _ _ _ => true | _ => false end.
Definition symbol_lookups (t : list event) : nat := count is_symbol_lookup t.

(** Host programs that never fetch. *)
Definition is_fetch (c : HostCall) : bool :=
  match c with Fetch _ _ _ => true | _ => false end.
Definition fetch_free (cs : list HostCall) : bool :=
  forallb (fun c => negb (is_fetch c)) cs.

(** The two setters, called on the handle [h]. *)
Definition is_setter_on (h : ptr) (c : HostCall) : bool :=
  match c with
  | SetBlockSize h' _ | SetBlockData h' _ => h' =? h
  | _ => false
  end.

(** No block has been reported a frame: every live block has
    [imageSize = 0], as the constructor leaves it. *)
Definition unfetched (w : World) : Prop :=
  forall h b, blocks w !! h = Some b -> imageSize b = 0.

(** Where the statics come from: a cached module handle and the cached
    function pointer are answers of the loader found in the trace. *)
Definition bound_from_loader (w : World) : Prop :=
  hSonyDll w ≠ NULL ->
  EvLoadLibraryA "Cr_Core.dll" (hSonyDll w) ∈ trace w /\
  EvGetProcAddress (hSonyDll w) "GetLiveViewImage" (pGetLiveViewImage w)
    ∈ trace w.

(** A host session used as test data: one block, primed with a buffer at
    4096, one fetch of a 5-byte frame, one copy-out to address 10. *)
Module Sessions.
Definition happy : list HostCall :=
  [Create; SetBlockSize 1 64; SetBlockData 1 4096;
   Fetch (Fixtures.present 5 0%Z) 9 1; Copy 1 10 8].
End Sessions.

(** * Properties *)

(** ** The scenarios of the design document, run *)

Module Scenarios.
Import Fixtures.

(** The first block of a process lives at address 1. *)
Example first_handle :
  returns Simple.CreateImageDataBlock (initial mem0) = Some 1.
Proof. reflexivity. Qed.

(** Happy path: create, prime with a 1 MiB buffer at 4096, fetch a frame of
    5 bytes, read the size, copy out, destroy. *)
Example happy_path :
  trace <$> leaves (run [Create; SetBlockSize 1 1048576; SetBlockData 1 4096;
                         Fetch (present 5 0%Z) 9 1; GetImageSizeOf 1;
                         Copy 1 4096 1048576; Destroy 1]) (initial mem0)
  = Some [EvLoadLibraryA "Cr_Core.dll" 7340032;
          EvGetProcAddress 7340032 "GetLiveViewImage" 7344128;
          EvGetLiveViewImage 9 1 0%Z; EvMemcpy 4096 4096 5].
Proof. vm_compute. reflexivity. Qed.

Example happy_path_size :
  (w ← leaves (run [Create; SetBlockSize 1 1048576; SetBlockData 1 4096;
                    Fetch (present 5 0%Z) 9 1]) (initial mem0);
   returns (Simple.GetImageDataBlockImageSize 1) w) = Some 5.
Proof. vm_compute. reflexivity. Qed.

(** Vendor missing, then installed. *)
Example vendor_missing_then_present :
  (w ← leaves (run [Create]) (initial mem0);
   '(r1, w1) ← Simple.GetLiveViewImageHelper absent 9 1 w;
   '(r2, w2) ← Simple.GetLiveViewImageHelper (present 5 0%Z) 9 1 w1;
   Some (r1, r2, trace w2))
  = Some (CrError_Generic, 0%Z,
          [EvLoadLibraryA "Cr_Core.dll" NULL;
           EvLoadLibraryA "Cr_Core.dll" 7340032;
           EvGetProcAddress 7340032 "GetLiveViewImage" 7344128;
           EvGetLiveViewImage 9 1 0%Z]).
Proof. vm_compute. reflexivity. Qed.

(** Oversize report: the vendor claims 2000000 bytes, the host offers
    1000000; nothing is copied. *)
Example oversize_report :
  trace <$> leaves (run [Create; SetBlockSize 1 1000000; SetBlockData 1 4096;
                         Fetch (present 2000000 0%Z) 9 1;
                         Copy 1 8192 1000000]) (initial mem0)
  = Some [EvLoadLibraryA "Cr_Core.dll" 7340032;
          EvGetProcAddress 7340032 "GetLiveViewImage" 7344128;
          EvGetLiveViewImage 9 1 0%Z].
Proof. vm_compute. reflexivity. Qed.

(** A copy of 5 bytes from 4096 to 10 changes the bytes 10..14 only. *)
Example copy_out_bytes :
  (w ← leaves (Simple.CopyImageData 1 10 8)
         (one_block (mkBlock 3 100 4096 5 0));
   Some (bytes w 9, bytes w 10, bytes w 14, bytes w 15, trace w))
  = Some (Byte.x00, Byte.x2a, Byte.x2a, Byte.x00, [EvMemcpy 10 4096 5]).
Proof. vm_compute. reflexivity. Qed.

(** Destroying a handle twice is undefined; destroying null is not. *)
Example double_destroy :
  run [Create; Destroy 1; Destroy 1] (initial mem0) = None /\
  is_Some (run [Create; Destroy 1; Destroy NULL] (initial mem0)).
Proof. split; [reflexivity|]. vm_compute. eauto. Qed.

(** A module without the symbol is kept: the second fetch does not load. *)
Example stripped_library :
  (w ← leaves (run [Fetch stripped 9 1; Fetch stripped 9 1]) (initial mem0);
   Some (trace w, hSonyDll w, pGetLiveViewImage w))
  = Some ([EvLoadLibraryA "Cr_Core.dll" 7340032;
           EvGetProcAddress 7340032 "GetLiveViewImage" NULL],
          7340032, NULL).
Proof. vm_compute. reflexivity. Qed.

End Scenarios.

(** ** Pointers and the monad *)

Lemma truthy_NULL : truthy NULL = false.
Proof. reflexivity. Qed.

Lemma truthy_true (p : N) : truthy p = true <-> p ≠ NULL.
Proof.
  unfold truthy, NULL. destruct (N.eqb_spec p 0); simpl; split; congruence.
Qed.

Lemma truthy_false (p : N) : truthy p = false <-> p = NULL.
Proof.
  unfold truthy, NULL. destruct (N.eqb_spec p 0); simpl; split; congruence.
Qed.

Lemma truthy_nonnull (p : N) : p ≠ NULL -> truthy p = true.
Proof. apply truthy_true. Qed.

(** The literal fits the return type: no conversion changes it. *)
Lemma CrError_Generic_int32 : (- 2 ^ 31 <= CrError_Generic < 2 ^ 31)%Z.
Proof. unfold CrError_Generic. lia. Qed.

Lemma bind_Some {A B} (m : M A) (k : A -> M B) w a w1 :
  m w = Some (a, w1) -> (m ≫= k) w = k a w1.
Proof. intros E. unfold mbind, M_bind, bind. now rewrite E. Qed.

Lemma bind_inv {A B} (m : M A) (k : A -> M B) w b w2 :
  (m ≫= k) w = Some (b, w2) ->
  exists a w1, m w = Some (a, w1) /\ k a w1 = Some (b, w2).
Proof.
  unfold mbind, M_bind, bind. destruct (m w) as [[a w1]|]; [|discriminate].
  intros E. now exists a, w1.
Qed.

Lemma deref_live p b w : blocks w !! p = Some b -> deref p w = Some (b, w).
Proof. intros E. unfold deref. now rewrite E. Qed.

Lemma assign_live p b b' w :
  blocks w !! p = Some b ->
  assign p b' w = Some (tt, with_blocks w (<[p := b']> (blocks w))).
Proof. intros E. unfold assign. now rewrite E. Qed.

(** Unfolds an entry point down to the primitive steps. *)
Ltac entry :=
  unfold Simple.DestroyImageDataBlock, Simple.SetImageDataBlockSize,
    Simple.SetImageDataBlockData, Simple.GetImageDataBlockImageSize,
    Simple.GetImageDataBlockImageData, Simple.CopyImageData,
    Linked.DestroyImageDataBlock, Linked.SetImageDataBlockSize,
    Linked.SetImageDataBlockData, Linked.GetImageDataBlockImageSize,
    Linked.GetImageDataBlockImageData, Linked.CopyImageData,
    Linked.GetLiveViewImageHelper.

(** ** The memory after a copy *)

Lemma memcpy_bytes_inside m dest src count i :
  i < count -> memcpy_bytes m dest src count (dest + i) = m (src + i).
Proof.
  intros Hi. unfold memcpy_bytes.
  replace (dest <=? dest + i) with true by (symmetry; apply N.leb_le; lia).
  replace (dest + i <? dest + count) with true
    by (symmetry; apply N.ltb_lt; lia).
  simpl. f_equal. lia.
Qed.

Lemma memcpy_bytes_outside m dest src count a :
  ¬ (dest <= a < dest + count) -> memcpy_bytes m dest src count a = m a.
Proof.
  intros Ha. unfold memcpy_bytes.
  destruct (N.leb_spec dest a); simpl; [|reflexivity].
  destruct (N.ltb_spec a (dest + count)); [|reflexivity].
  exfalso. apply Ha. lia.
Qed.

Lemma bytes_written_app t e :
  bytes_written (t ++ [e]) =
  bytes_written t + bytes_written [e].
Proof.
  induction t as [|x t IH]; simpl; [lia|].
  destruct x; simpl in *; rewrite ?IH; lia.
Qed.

(** ** The linked build under the mirror

    With the vendor methods read as the field accesses of the wrapper, the
    six block entry points and the copy of SonySDKHelper.cpp are those of
    SonySDKHelperSimple.cpp. *)

Lemma Linked_mirror_block_store f :
  @Linked.CreateImageDataBlock (mirror f) = Simple.CreateImageDataBlock /\
  @Linked.DestroyImageDataBlock = Simple.DestroyImageDataBlock /\
  @Linked.SetImageDataBlockSize (mirror f) = Simple.SetImageDataBlockSize /\
  @Linked.SetImageDataBlockData (mirror f) = Simple.SetImageDataBlockData /\
  @Linked.GetImageDataBlockImageSize (mirror f)
    = Simple.GetImageDataBlockImageSize /\
  @Linked.GetImageDataBlockImageData (mirror f)
    = Simple.GetImageDataBlockImageData /\
  @Linked.CopyImageData (mirror f) = Simple.CopyImageData.
Proof. repeat split; reflexivity. Qed.

(** ** The block store *)

Section BlockStore.
Context `{vendor : CrImageDataBlock}.

Lemma Linked_getters_live w h b :
  h ≠ NULL -> blocks w !! h = Some b ->
  Linked.GetImageDataBlockImageSize h w = Some (GetImageSize b, w) /\
  Linked.GetImageDataBlockImageData h w = Some (GetImageData b, w).
Proof.
  intros Hh Hb. entry. rewrite (truthy_nonnull h Hh).
  split; now rewrite (bind_Some _ _ _ _ _ (deref_live _ _ _ Hb)).
Qed.

Lemma Linked_setters_live w h b :
  h ≠ NULL -> blocks w !! h = Some b ->
  (forall n, Linked.SetImageDataBlockSize h n w
     = Some (tt, with_blocks w (<[h := SetSize b n]> (blocks w)))) /\
  (forall p, Linked.SetImageDataBlockData h p w
     = Some (tt, with_blocks w (<[h := SetData b p]> (blocks w)))).
Proof.
  intros Hh Hb. entry. rewrite (truthy_nonnull h Hh).
  split; intros x; rewrite (bind_Some _ _ _ _ _ (deref_live _ _ _ Hb));
    now apply assign_live with b.
Qed.

(** The copy, by cases on the guard of line 85 and the guard of line 90. *)
Lemma Linked_CopyImageData_live w h d n b :
  h ≠ NULL -> blocks w !! h = Some b ->
  Linked.CopyImageData h d n w =
  if truthy d && (truthy (GetImageData b) && (0 <? GetImageSize b)
                  && (GetImageSize b <=? n))
  then Some (tt, emit (with_bytes w (memcpy_bytes (bytes w) d (GetImageData b)
                                       (GetImageSize b)))
                   (EvMemcpy d (GetImageData b) (GetImageSize b)))
  else Some (tt, w).
Proof.
  intros Hh Hb. entry. rewrite (truthy_nonnull h Hh). simpl.
  destruct (truthy d); simpl; [|reflexivity].
  rewrite (bind_Some _ _ _ _ _ (deref_live _ _ _ Hb)).
  now destruct (truthy (GetImageData b) && (0 <? GetImageSize b)
                && (GetImageSize b <=? n)).
Qed.

End BlockStore.

Lemma not_copied_refl w : ¬ copied w w.
Proof.
  intros (d & s & k & E). apply (f_equal length) in E.
  rewrite length_app in E. simpl in E. lia.
Qed.

Lemma guard_true (p : ptr) (k n : CrInt32u) :
  truthy p && (0 <? k) && (k <=? n) = true <-> p ≠ NULL /\ 0 < k /\ k <= n.
Proof.
  rewrite !andb_true_iff, truthy_true, N.ltb_lt, N.leb_le. tauto.
Qed.

(** ** The bounded copy *)

(** The copy of the linked build, for every vendor class: [memcpy] is called
    only under the guard of line 90, with the size and the pointer the two
    vendor getters returned. *)
Lemma Linked_CopyImageData_bounded `{vendor : CrImageDataBlock} (w : World)
    (h d : ptr) (n : CrInt32u) (b : ImageDataBlockWrapper) :
  h ≠ NULL -> blocks w !! h = Some b ->
  exists w', Linked.CopyImageData h d n w = Some (tt, w') /\
    (copied w w' ->
       (GetImageData b ≠ NULL /\ 0 < GetImageSize b /\ GetImageSize b <= n) /\
       trace w'
         = trace w ++ [EvMemcpy d (GetImageData b) (N.min (GetImageSize b) n)] /\
       N.min (GetImageSize b) n = GetImageSize b /\
       bytes_written (trace w') = bytes_written (trace w) + GetImageSize b /\
       (forall i, i < GetImageSize b ->
          bytes w' (d + i) = bytes w (GetImageData b + i)) /\
       (forall a, ¬ (d <= a < d + GetImageSize b) -> bytes w' a = bytes w a) /\
       blocks w' = blocks w) /\
    (¬ copied w w' -> w' = w) /\
    (¬ (GetImageData b ≠ NULL /\ 0 < GetImageSize b /\ GetImageSize b <= n) ->
       w' = w) /\
    (d ≠ NULL -> GetImageData b ≠ NULL -> 0 < GetImageSize b ->
     GetImageSize b <= n -> copied w w') /\
    bytes_written (trace w') - bytes_written (trace w)
      <= N.min (GetImageSize b) n.
Proof.
  intros Hh Hb. rewrite (Linked_CopyImageData_live w h d n b Hh Hb).
  destruct (truthy d && (truthy (GetImageData b) && (0 <? GetImageSize b)
                         && (GetImageSize b <=? n))) eqn:G.
  - apply andb_true_iff in G. destruct G as [Hd G].
    apply truthy_true in Hd. apply guard_true in G.
    destruct G as (Hp & Hpos & Hle).
    assert (Hmin : N.min (GetImageSize b) n = GetImageSize b) by lia.
    assert (Hc : copied w
                   (emit (with_bytes w (memcpy_bytes (bytes w) d (GetImageData b)
                                          (GetImageSize b)))
                      (EvMemcpy d (GetImageData b) (GetImageSize b))))
      by now exists d, (GetImageData b), (GetImageSize b).
    eexists; split; [reflexivity|]. split_and!.
    + intros _. split_and!; simpl; try done.
      * now rewrite Hmin.
      * rewrite bytes_written_app. simpl. lia.
      * intros i Hi. now apply memcpy_bytes_inside.
      * intros a Ha. now apply memcpy_bytes_outside.
    + intros Hn. now destruct Hn.
    + intros Hn. destruct Hn. done.
    + intros _ _ _ _. exact Hc.
    + simpl. rewrite bytes_written_app. simpl. lia.
  - assert (Hn : ¬ (d ≠ NULL /\ GetImageData b ≠ NULL /\ 0 < GetImageSize b
                    /\ GetImageSize b <= n)).
    { intros (H1 & H2). apply truthy_true in H1. apply guard_true in H2.
      rewrite H1, H2 in G. discriminate. }
    exists w. split; [reflexivity|]. split_and!.
    + intros C. now apply not_copied_refl in C.
    + done.
    + done.
    + intros H1 H2 H3 H4. exfalso. apply Hn. done.
    + lia.
Qed.

(** C1.  [CopyImageData(h, d, n)] on a block handle [h] calls [memcpy] only
    when the block's [pData] is non-null, [imageSize > 0] and
    [imageSize <= n]; the call then writes exactly
    [min(imageSize, n) = imageSize] bytes, those found at [pData], to [d],
    and no other byte of the memory changes.  In every other case the world
    is left as it was: zero bytes are written.  For a non-null destination
    the three conditions are also sufficient for the copy. *)
Theorem CopyImageData_bounded (w : World) (h d : ptr) (n : CrInt32u)
    (b : ImageDataBlockWrapper) :
  h ≠ NULL -> blocks w !! h = Some b ->
  exists w', Simple.CopyImageData h d n w = Some (tt, w') /\
    (copied w w' ->
       (pData b ≠ NULL /\ 0 < imageSize b /\ imageSize b <= n) /\
       trace w' = trace w ++ [EvMemcpy d (pData b) (N.min (imageSize b) n)] /\
       N.min (imageSize b) n = imageSize b /\
       bytes_written (trace w') = bytes_written (trace w) + imageSize b /\
       (forall i, i < imageSize b -> bytes w' (d + i) = bytes w (pData b + i)) /\
       (forall a, ¬ (d <= a < d + imageSize b) -> bytes w' a = bytes w a) /\
       blocks w' = blocks w) /\
    (¬ copied w w' -> w' = w) /\
    (¬ (pData b ≠ NULL /\ 0 < imageSize b /\ imageSize b <= n) -> w' = w) /\
    (d ≠ NULL -> pData b ≠ NULL -> 0 < imageSize b -> imageSize b <= n ->
       copied w w') /\
    bytes_written (trace w') - bytes_written (trace w)
      <= N.min (imageSize b) n.
Proof.
  exact (@Linked_CopyImageData_bounded (mirror idle) w h d n b).
Qed.

Lemma CopyImageData_bounded_witness :
  (1 ≠ NULL /\
   blocks (Fixtures.one_block (mkBlock 3 100 4096 5 0)) !! 1
     = Some (mkBlock 3 100 4096 5 0)) /\
  exists w',
    Simple.CopyImageData 1 10 8 (Fixtures.one_block (mkBlock 3 100 4096 5 0))
      = Some (tt, w') /\
    trace w' = [EvMemcpy 10 4096 5] /\
    bytes_written (trace w') = 5.
Proof.
  assert (H1 : 1 ≠ NULL) by (unfold NULL; lia).
  assert (H2 : blocks (Fixtures.one_block (mkBlock 3 100 4096 5 0)) !! 1
               = Some (mkBlock 3 100 4096 5 0)) by reflexivity.
  split; [now split|].
  destruct (CopyImageData_bounded _ 1 10 8 _ H1 H2)
    as (w' & E & Hcopy & _ & _ & Hsuff & _).
  exists w'. split; [exact E|].
  assert (C : copied (Fixtures.one_block (mkBlock 3 100 4096 5 0)) w').
  { apply Hsuff; simpl; unfold NULL; lia. }
  destruct (Hcopy C) as (_ & Ht & _ & Hb & _).
  split; [exact Ht|exact Hb].
Defined.

(** C10.  With a null destination [CopyImageData] leaves the world as it
    was, whatever the handle and the capacity: the guard on the destination
    is evaluated before the block is read, so the call is defined even for
    a handle that is not a live block, and nothing is written.  The same
    holds in the linked build for every vendor class. *)
Theorem CopyImageData_null_destination (w : World) (h : ptr) (n : CrInt32u) :
  Simple.CopyImageData h NULL n w = Some (tt, w) /\
  (forall vendor : CrImageDataBlock,
     Linked.CopyImageData h NULL n w = Some (tt, w)) /\
  ¬ copied w w.
Proof.
  split_and!.
  - entry. rewrite truthy_NULL, andb_false_r. reflexivity.
  - intros vendor. entry. rewrite truthy_NULL, andb_false_r. reflexivity.
  - apply not_copied_refl.
Qed.

(** C6.  On a null block handle the destroy, the two setters and the copy
    return with the world unchanged, the image-size getter returns 0 and
    the image-data getter returns null; each call is defined.  This holds
    in both builds. *)
Theorem null_handle_tolerance (w : World) (n : CrInt32u) (p d : ptr) :
  (Simple.DestroyImageDataBlock NULL w = Some (tt, w) /\
   Simple.SetImageDataBlockSize NULL n w = Some (tt, w) /\
   Simple.SetImageDataBlockData NULL p w = Some (tt, w) /\
   Simple.CopyImageData NULL d n w = Some (tt, w) /\
   Simple.GetImageDataBlockImageSize NULL w = Some (0, w) /\
   Simple.GetImageDataBlockImageData NULL w = Some (NULL, w)) /\
  (forall vendor : CrImageDataBlock,
   Linked.DestroyImageDataBlock NULL w = Some (tt, w) /\
   Linked.SetImageDataBlockSize NULL n w = Some (tt, w) /\
   Linked.SetImageDataBlockData NULL p w = Some (tt, w) /\
   Linked.CopyImageData NULL d n w = Some (tt, w) /\
   Linked.GetImageDataBlockImageSize NULL w = Some (0, w) /\
   Linked.GetImageDataBlockImageData NULL w = Some (NULL, w)).
Proof.
  split; [|intros vendor]; split_and!; reflexivity.
Qed.

(** C5.  [CreateImageDataBlock] always returns, and the handle it returns is
    non-null, was not a live block before, and now refers to a block whose
    [frameNo], [size], [imageSize] and [timeCode] are zero and whose [pData]
    is null.  The blocks that existed are unchanged.  In the linked build
    the new block is the object the vendor's constructor yields. *)
Theorem CreateImageDataBlock_zeroed (w : World) :
  (exists h w', Simple.CreateImageDataBlock w = Some (h, w') /\
     h ≠ NULL /\ blocks w !! h = None /\
     (exists b, blocks w' !! h = Some b /\
        frameNo b = 0 /\ size b = 0 /\ imageSize b = 0 /\ timeCode b = 0 /\
        pData b = NULL) /\
     (forall h2, h2 ≠ h -> blocks w' !! h2 = blocks w !! h2)) /\
  (forall vendor : CrImageDataBlock,
   exists h w', Linked.CreateImageDataBlock w = Some (h, w') /\
     h ≠ NULL /\ blocks w !! h = None /\
     blocks w' !! h = Some CrImageDataBlock_ctor).
Proof.
  unfold Simple.CreateImageDataBlock, Linked.CreateImageDataBlock, new_wrapper.
  set (p := fresh ({[NULL]} ∪ dom (blocks w) : gset N)).
  assert (Hp : p ∉ ({[NULL]} ∪ dom (blocks w) : gset N)) by apply is_fresh.
  assert (Hnn : p ≠ NULL) by set_solver.
  assert (Hnew : blocks w !! p = None) by (apply not_elem_of_dom; set_solver).
  split; [|intros vendor]; exists p; eexists; (split; [reflexivity|]); simpl;
    split_and!; try done.
  - exists ImageDataBlockWrapper_ctor. rewrite lookup_insert_eq. done.
  - intros h2 Hne. now apply lookup_insert_ne.
  - apply lookup_insert_eq.
Qed.

(** The getters read one block and nothing else. *)
Lemma Simple_getters_agree (w1 w2 : World) (h : ptr) :
  imageSize <$> blocks w1 !! h = imageSize <$> blocks w2 !! h ->
  pData <$> blocks w1 !! h = pData <$> blocks w2 !! h ->
  returns (Simple.GetImageDataBlockImageSize h) w1
    = returns (Simple.GetImageDataBlockImageSize h) w2 /\
  returns (Simple.GetImageDataBlockImageData h) w1
    = returns (Simple.GetImageDataBlockImageData h) w2.
Proof.
  intros Hs Hd. unfold returns. entry.
  destruct (truthy h); [|done].
  unfold mbind, M_bind, bind, deref, mret, M_ret, ret.
  destruct (blocks w1 !! h) as [b1|], (blocks w2 !! h) as [b2|];
    simpl in *; split; congruence.
Qed.

(** C7.  For a non-null block handle [h] and any [n],
    [SetImageDataBlockSize(h, n)] returns, and afterwards
    [GetImageDataBlockImageSize] and [GetImageDataBlockImageData] return
    what they returned before, on [h] and on every other handle.  The call
    changes the [size] field of the block at [h] and nothing else in the
    world. *)
Theorem SetImageDataBlockSize_unobserved (w : World) (h : ptr) (n : CrInt32u)
    (b : ImageDataBlockWrapper) :
  h ≠ NULL -> blocks w !! h = Some b ->
  exists w', Simple.SetImageDataBlockSize h n w = Some (tt, w') /\
    (forall h2,
       returns (Simple.GetImageDataBlockImageSize h2) w'
         = returns (Simple.GetImageDataBlockImageSize h2) w /\
       returns (Simple.GetImageDataBlockImageData h2) w'
         = returns (Simple.GetImageDataBlockImageData h2) w) /\
    returns (Simple.GetImageDataBlockImageSize h) w' = Some (imageSize b) /\
    returns (Simple.GetImageDataBlockImageData h) w' = Some (pData b) /\
    blocks w' !! h
      = Some (mkBlock (frameNo b) n (pData b) (imageSize b) (timeCode b)) /\
    (forall h2, h2 ≠ h -> blocks w' !! h2 = blocks w !! h2) /\
    bytes w' = bytes w /\ hSonyDll w' = hSonyDll w /\
    pGetLiveViewImage w' = pGetLiveViewImage w /\ trace w' = trace w.
Proof.
  intros Hh Hb.
  destruct (@Linked_setters_live (mirror idle) w h b Hh Hb)
    as [Hset _].
  destruct (@Linked_getters_live (mirror idle)
              (with_blocks w (<[h := assign_size b n]> (blocks w))) h
              (assign_size b n) Hh) as [Hgs Hgd].
  { simpl. apply lookup_insert_eq. }
  eexists. split; [apply Hset|]. simpl. split_and!; try done.
  - intros h2. apply Simple_getters_agree; simpl.
    + destruct (decide (h = h2)) as [->|Hne].
      * now rewrite lookup_insert_eq, Hb.
      * now rewrite lookup_insert_ne.
    + destruct (decide (h = h2)) as [->|Hne].
      * now rewrite lookup_insert_eq, Hb.
      * now rewrite lookup_insert_ne.
  - unfold returns. change (@Linked.GetImageDataBlockImageSize
      (mirror idle)) with Simple.GetImageDataBlockImageSize
      in Hgs. now rewrite Hgs.
  - unfold returns. change (@Linked.GetImageDataBlockImageData
      (mirror idle)) with Simple.GetImageDataBlockImageData
      in Hgd. now rewrite Hgd.
  - apply lookup_insert_eq.
  - intros h2 Hne. now apply lookup_insert_ne.
Qed.

Lemma SetImageDataBlockSize_unobserved_witness :
  (1 ≠ NULL /\
   blocks (Fixtures.one_block (mkBlock 3 100 4096 5 0)) !! 1
     = Some (mkBlock 3 100 4096 5 0)) /\
  exists w',
    Simple.SetImageDataBlockSize 1 64
      (Fixtures.one_block (mkBlock 3 100 4096 5 0)) = Some (tt, w') /\
    returns (Simple.GetImageDataBlockImageSize 1) w' = Some 5 /\
    returns (Simple.GetImageDataBlockImageData 1) w' = Some 4096.
Proof.
  assert (H1 : 1 ≠ NULL) by (unfold NULL; lia).
  assert (H2 : blocks (Fixtures.one_block (mkBlock 3 100 4096 5 0)) !! 1
               = Some (mkBlock 3 100 4096 5 0)) by reflexivity.
  split; [now split|].
  destruct (SetImageDataBlockSize_unobserved _ 1 64 _ H1 H2)
    as (w' & E & _ & Hs & Hd & _).
  exists w'. split; [exact E|]. split; [exact Hs|exact Hd].
Defined.

(** C8.  For a non-null block handle [h], [GetImageDataBlockImageData(h)]
    returns the [pData] field stored in the block and leaves the world
    unchanged; and for every pointer [p], [SetImageDataBlockData(h, p)]
    returns and the getter called right after it returns [p].  No fetch
    takes part: the setter adds nothing to the trace. *)
Theorem GetImageDataBlockImageData_stored (w : World) (h : ptr)
    (b : ImageDataBlockWrapper) :
  h ≠ NULL -> blocks w !! h = Some b ->
  Simple.GetImageDataBlockImageData h w = Some (pData b, w) /\
  forall p : ptr,
    exists w', Simple.SetImageDataBlockData h p w = Some (tt, w') /\
      Simple.GetImageDataBlockImageData h w' = Some (p, w') /\
      trace w' = trace w.
Proof.
  intros Hh Hb. split.
  - exact (proj2 (@Linked_getters_live (mirror idle)
                    w h b Hh Hb)).
  - intros p.
    destruct (@Linked_setters_live (mirror idle) w h b Hh Hb)
      as [_ Hset].
    eexists. split; [apply Hset|]. split; [|reflexivity].
    refine (proj2 (@Linked_getters_live (mirror idle)
                     _ h (assign_pData b p) Hh _)).
    simpl. apply lookup_insert_eq.
Qed.

Lemma GetImageDataBlockImageData_stored_witness :
  (1 ≠ NULL /\
   blocks (Fixtures.one_block ImageDataBlockWrapper_ctor) !! 1
     = Some ImageDataBlockWrapper_ctor) /\
  Simple.GetImageDataBlockImageData 1
    (Fixtures.one_block ImageDataBlockWrapper_ctor)
  = Some (NULL, Fixtures.one_block ImageDataBlockWrapper_ctor) /\
  exists w',
    Simple.SetImageDataBlockData 1 4096
      (Fixtures.one_block ImageDataBlockWrapper_ctor) = Some (tt, w') /\
    Simple.GetImageDataBlockImageData 1 w' = Some (4096, w').
Proof.
  assert (H1 : 1 ≠ NULL) by (unfold NULL; lia).
  assert (H2 : blocks (Fixtures.one_block ImageDataBlockWrapper_ctor) !! 1
               = Some ImageDataBlockWrapper_ctor) by reflexivity.
  split; [now split|].
  destruct (GetImageDataBlockImageData_stored _ 1 _ H1 H2) as [Hget Hset].
  split; [exact Hget|].
  destruct (Hset 4096) as (w' & E1 & E2 & _).
  exists w'. split; [exact E1|exact E2].
Defined.

(** ** The fetch *)

Lemma count_snoc f t e :
  count f (t ++ [e]) = (count f t + if f e then 1 else 0)%nat.
Proof. induction t as [|x t IH]; simpl; [|rewrite IH]; lia. Qed.

Lemma forward_cases os dev img w :
  Simple.forward os dev img w =
  if truthy dev && truthy img && truthy (pGetLiveViewImage w)
  then call (routine_at os (pGetLiveViewImage w)) dev img w
  else Some (CrError_Generic, w).
Proof.
  unfold Simple.forward, mbind, M_bind, bind, get_pGetLiveViewImage.
  now destruct (truthy dev && truthy img && truthy (pGetLiveViewImage w)).
Qed.

(** The fetch, by cases on the three tests of lines 81, 83 and 89. *)
Lemma GetLiveViewImageHelper_cases os dev img w :
  Simple.GetLiveViewImageHelper os dev img w =
  if truthy (hSonyDll w) then Simple.forward os dev img w
  else
    let h := library_at os "Cr_Core.dll" in
    let w1 := with_hSonyDll (emit w (EvLoadLibraryA "Cr_Core.dll" h)) h in
    if truthy h then
      let p := symbol_at os h "GetLiveViewImage" in
      let w2 := with_pGetLiveViewImage
                  (emit w1 (EvGetProcAddress h "GetLiveViewImage" p)) p in
      if truthy p then Simple.forward os dev img w2
      else Some (CrError_Generic, w2)
    else Some (CrError_Generic, w1).
Proof.
  unfold Simple.GetLiveViewImageHelper, mbind, M_bind, bind, get_hSonyDll,
    LoadLibraryA, set_hSonyDll, GetProcAddress, set_pGetLiveViewImage,
    mret, M_ret, ret.
  destruct (truthy (hSonyDll w)); simpl; [reflexivity|].
  destruct (truthy (library_at os "Cr_Core.dll")); simpl; [|reflexivity].
  destruct (truthy (symbol_at os _ "GetLiveViewImage")); reflexivity.
Qed.

(** A failed load stores the null it got: the statics are as they were. *)
Lemma load_failed_world w e :
  hSonyDll w = NULL -> with_hSonyDll (emit w e) NULL = emit w e.
Proof. destruct w; simpl. now intros ->. Qed.

(** With the module handle cached the fetch is the forwarding step. *)
Lemma GetLiveViewImageHelper_cached os dev img w :
  hSonyDll w ≠ NULL ->
  Simple.GetLiveViewImageHelper os dev img w = Simple.forward os dev img w.
Proof.
  intros H. rewrite GetLiveViewImageHelper_cases.
  now rewrite (truthy_nonnull _ H).
Qed.

(** The forwarding step always returns, never loads, and keeps the
    statics. *)
Lemma forward_total os dev img w :
  exists r w', Simple.forward os dev img w = Some (r, w') /\
    hSonyDll w' = hSonyDll w /\ pGetLiveViewImage w' = pGetLiveViewImage w /\
    load_attempts (trace w') = load_attempts (trace w) /\
    loads (trace w') = loads (trace w) /\
    (pGetLiveViewImage w = NULL -> r = CrError_Generic /\ w' = w).
Proof.
  rewrite forward_cases.
  destruct (truthy dev && truthy img && truthy (pGetLiveViewImage w)) eqn:G.
  - unfold call. do 2 eexists. split; [reflexivity|]. simpl.
    unfold load_attempts, loads. rewrite !count_snoc. simpl.
    split_and!; try done; try lia.
    intros E. rewrite E, truthy_NULL, andb_false_r in G. discriminate.
  - do 2 eexists. split; [reflexivity|]. done.
Qed.

(** The fetch always returns. *)
Lemma GetLiveViewImageHelper_total os dev img w :
  exists r w', Simple.GetLiveViewImageHelper os dev img w = Some (r, w').
Proof.
  rewrite GetLiveViewImageHelper_cases.
  destruct (truthy (hSonyDll w)).
  - destruct (forward_total os dev img w) as (r & w' & E & _). eauto.
  - simpl. destruct (truthy (library_at os "Cr_Core.dll")); [|eauto].
    destruct (truthy (symbol_at os _ "GetLiveViewImage")); [|eauto].
    match goal with |- context [Simple.forward os dev img ?x] =>
      destruct (forward_total os dev img x) as (r & w' & E & _) end.
    eauto.
Qed.

(** What one fetch does to the statics and to the loads in the trace. *)
Lemma GetLiveViewImageHelper_binding os dev img w r w' :
  Simple.GetLiveViewImageHelper os dev img w = Some (r, w') ->
  (hSonyDll w ≠ NULL ->
     hSonyDll w' = hSonyDll w /\ pGetLiveViewImage w' = pGetLiveViewImage w /\
     load_attempts (trace w') = load_attempts (trace w) /\
     loads (trace w') = loads (trace w)) /\
  (hSonyDll w = NULL ->
     hSonyDll w' = library_at os "Cr_Core.dll" /\
     load_attempts (trace w') = S (load_attempts (trace w)) /\
     loads (trace w') =
       (loads (trace w) + if truthy (hSonyDll w') then 1 else 0)%nat /\
     (hSonyDll w' = NULL -> pGetLiveViewImage w' = pGetLiveViewImage w) /\
     (hSonyDll w' ≠ NULL ->
        pGetLiveViewImage w' = symbol_at os (hSonyDll w') "GetLiveViewImage")).
Proof.
  rewrite GetLiveViewImageHelper_cases. intros E. split; intros Hh.
  - rewrite (truthy_nonnull _ Hh) in E.
    destruct (forward_total os dev img w) as (r0 & w0 & E0 & H1 & H2 & H3 & H4 & _).
    rewrite E0 in E. inversion E; subst. done.
  - assert (Ht : truthy (hSonyDll w) = false) by now apply truthy_false.
    rewrite Ht in E. simpl in E.
    destruct (truthy (library_at os "Cr_Core.dll")) eqn:Hl.
    + assert (Hl' : library_at os "Cr_Core.dll" ≠ NULL) by now apply truthy_true.
      destruct (truthy (symbol_at os _ "GetLiveViewImage")) eqn:Hs.
      * match type of E with Simple.forward os dev img ?x = _ =>
          destruct (forward_total os dev img x)
            as (r0 & w0 & E0 & H1 & H2 & H3 & H4 & _) end.
        rewrite E0 in E. inversion E; subst. simpl in *.
        unfold load_attempts, loads in *. rewrite H1, H2, H3, H4, Hl.
        rewrite !count_snoc. simpl. rewrite Hl. split_and!; try done; lia.
      * inversion E; subst. simpl. unfold load_attempts, loads.
        rewrite !count_snoc. simpl. rewrite Hl. split_and!; try done; lia.
    + inversion E; subst. simpl. unfold load_attempts, loads.
      rewrite !count_snoc. simpl. rewrite Hl.
      apply truthy_false in Hl. split_and!; try done; lia.
Qed.

(** The seven other entry points leave the statics alone and add no loader
    event to the trace. *)
Lemma exec_block_call c w w' :
  (forall os d h, c ≠ Fetch os d h) ->
  exec c w = Some (tt, w') ->
  hSonyDll w' = hSonyDll w /\ pGetLiveViewImage w' = pGetLiveViewImage w /\
  load_attempts (trace w') = load_attempts (trace w) /\
  loads (trace w') = loads (trace w).
Proof.
  intros Hc E. destruct c; simpl in E; try (now destruct (Hc os deviceHandle h));
    revert E; unfold Simple.CreateImageDataBlock; entry;
    unfold mbind, M_bind, bind, mret, M_ret, ret, new_wrapper, delete_wrapper,
      deref, assign, memcpy;
    repeat match goal with
           | |- context [if ?c then _ else _] => destruct c
           | |- context [match blocks w !! ?h with _ => _ end] =>
               destruct (blocks w !! h)
           end;
    intros E; inversion E; subst; simpl;
    unfold load_attempts, loads; rewrite ?count_snoc; simpl;
    split_and!; try done; lia.
Qed.

Lemma exec_cached c w w' :
  hSonyDll w ≠ NULL -> exec c w = Some (tt, w') ->
  hSonyDll w' = hSonyDll w /\ pGetLiveViewImage w' = pGetLiveViewImage w /\
  load_attempts (trace w') = load_attempts (trace w) /\
  loads (trace w') = loads (trace w).
Proof.
  intros Hh E. destruct c;
    try (apply exec_block_call in E; [exact E|discriminate]).
  simpl in E. apply bind_inv in E. destruct E as (r & w1 & E & E1).
  inversion E1; subst.
  now apply (GetLiveViewImageHelper_binding _ _ _ _ _ _ E).
Qed.

Lemma exec_binding_inv c w w' :
  binding_inv w -> exec c w = Some (tt, w') -> binding_inv w'.
Proof.
  intros [I1 I2] E. unfold binding_inv.
  destruct (decide (hSonyDll w = NULL)) as [Hn|Hn].
  - destruct c;
      try (apply exec_block_call in E; [|discriminate];
           destruct E as (-> & -> & _ & ->); done).
    simpl in E. apply bind_inv in E. destruct E as (r & w1 & E & E1).
    inversion E1; subst.
    destruct (GetLiveViewImageHelper_binding _ _ _ _ _ _ E) as [_ H].
    destruct (H Hn) as (Hh & _ & Hl & Hp & _).
    rewrite Hl, I2, (proj2 (truthy_false _) Hn). split; [|done].
    intros Hw. rewrite (Hp Hw). auto.
  - destruct (exec_cached c w w' Hn E) as (-> & -> & _ & ->). done.
Qed.

Lemma run_cached cs : forall w w',
  hSonyDll w ≠ NULL -> run cs w = Some (tt, w') ->
  hSonyDll w' = hSonyDll w /\ pGetLiveViewImage w' = pGetLiveViewImage w /\
  load_attempts (trace w') = load_attempts (trace w) /\
  loads (trace w') = loads (trace w).
Proof.
  induction cs as [|c cs IH]; intros w w' Hh E; simpl in E.
  - inversion E; subst. done.
  - apply bind_inv in E. destruct E as ([] & w1 & E1 & E2).
    destruct (exec_cached c w w1 Hh E1) as (H1 & H2 & H3 & H4).
    destruct (IH w1 w') as (K1 & K2 & K3 & K4); [congruence|exact E2|].
    split_and!; congruence.
Qed.

Lemma run_binding_inv cs : forall w w',
  binding_inv w -> run cs w = Some (tt, w') -> binding_inv w'.
Proof.
  induction cs as [|c cs IH]; intros w w' I E; simpl in E.
  - inversion E; subst. done.
  - apply bind_inv in E. destruct E as ([] & w1 & E1 & E2).
    apply (IH w1 w'); [|exact E2]. now apply (exec_binding_inv c w).
Qed.

Lemma reachable_binding_inv w : reachable w -> binding_inv w.
Proof.
  intros (mem & cs & E). apply (run_binding_inv cs (initial mem) w); [|exact E].
  split; reflexivity.
Qed.

(** The heap is untouched by the statics and by the trace. *)
Lemma heap_with_heap w hp : heap (with_heap w hp) = hp.
Proof. now destruct hp. Qed.

Lemma heap_statics w e h p :
  heap (emit w e) = heap w /\ heap (with_hSonyDll w h) = heap w /\
  heap (with_pGetLiveViewImage w p) = heap w.
Proof. done. Qed.

Ltac heap_simpl :=
  repeat first
    [ rewrite heap_with_heap
    | rewrite (proj1 (heap_statics _ _ NULL NULL))
    | rewrite (proj1 (proj2 (heap_statics _ (EvMemcpy 0 0 0) _ NULL)))
    | rewrite (proj2 (proj2 (heap_statics _ (EvMemcpy 0 0 0) NULL _))) ].

(** The value a fetch returns and the vendor calls it makes, in terms of
    [resolve]. *)
Lemma GetLiveViewImageHelper_result os dev img w :
  exists w',
    Simple.GetLiveViewImageHelper os dev img w =
      Some (if truthy dev && truthy img && truthy (resolve os w)
            then (routine_at os (resolve os w) dev img (heap w)).1
            else CrError_Generic, w') /\
    (truthy dev && truthy img && truthy (resolve os w) = true ->
       trace w' ≠ trace w /\
       last (trace w')
         = Some (EvGetLiveViewImage dev img
                   (routine_at os (resolve os w) dev img (heap w)).1) /\
       heap w' = (routine_at os (resolve os w) dev img (heap w)).2) /\
    (truthy dev && truthy img && truthy (resolve os w) = false ->
       heap w' = heap w) /\
    vendor_calls (trace w') =
      (vendor_calls (trace w)
       + if truthy dev && truthy img && truthy (resolve os w) then 1 else 0)%nat.
Proof.
  rewrite GetLiveViewImageHelper_cases. unfold resolve.
  destruct (truthy (hSonyDll w)); simpl;
    [|destruct (truthy (library_at os "Cr_Core.dll")); simpl;
      [destruct (truthy (symbol_at os _ "GetLiveViewImage")) eqn:Hs|]];
    rewrite ?forward_cases; unfold call; simpl; rewrite ?Hs, ?andb_false_r;
    try destruct (truthy dev && truthy img); simpl;
    try destruct (truthy (pGetLiveViewImage w)); simpl;
    heap_simpl;
    (eexists; split; [reflexivity|]); simpl; unfold vendor_calls;
    rewrite ?count_snoc; simpl; split_and!; try done; try lia.
  all: intros _; heap_simpl; (split_and!; [|apply last_snoc|done]);
    intros E; apply (f_equal length) in E; rewrite !length_app in E;
    simpl in E; lia.
Qed.

Lemma Linked_GetLiveViewImageHelper_cases `{vendor : CrImageDataBlock}
    dev img w :
  Linked.GetLiveViewImageHelper dev img w =
  if truthy dev && truthy img
  then Some ((GetLiveViewImage dev img (heap w)).1,
             emit (with_heap w (GetLiveViewImage dev img (heap w)).2)
               (EvGetLiveViewImage dev img (GetLiveViewImage dev img (heap w)).1))
  else Some (CrError_Generic, w).
Proof. entry. now destruct (truthy dev && truthy img). Qed.

(** C9.  With a non-null device handle, a non-null block handle and a
    successful binding, the fetch returns the very value the vendor routine
    returned, and the routine was called on the two pointers as given.
    The generic code is the bridge's own only when no vendor call was made,
    and that happens only for a null argument or a failed binding.  In the
    linked build the imported routine's value is returned for non-null
    arguments. *)
Theorem vendor_result_passed_through (os : Platform) (w : World)
    (dev img : ptr) :
  (dev ≠ NULL -> img ≠ NULL -> resolve os w ≠ NULL ->
   exists w',
     Simple.GetLiveViewImageHelper os dev img w
       = Some ((routine_at os (resolve os w) dev img (heap w)).1, w') /\
     last (trace w')
       = Some (EvGetLiveViewImage dev img
                 (routine_at os (resolve os w) dev img (heap w)).1) /\
     vendor_calls (trace w') = S (vendor_calls (trace w))) /\
  (forall r w',
     Simple.GetLiveViewImageHelper os dev img w = Some (r, w') ->
     vendor_calls (trace w') = vendor_calls (trace w) ->
     r = CrError_Generic /\
     (dev = NULL \/ img = NULL \/ resolve os w = NULL)) /\
  (dev = NULL \/ img = NULL \/ resolve os w = NULL ->
   exists w',
     Simple.GetLiveViewImageHelper os dev img w = Some (CrError_Generic, w') /\
     vendor_calls (trace w') = vendor_calls (trace w)) /\
  (forall vendor : CrImageDataBlock,
     dev ≠ NULL -> img ≠ NULL ->
     returns (Linked.GetLiveViewImageHelper dev img) w
       = Some (GetLiveViewImage dev img (heap w)).1).
Proof.
  destruct (GetLiveViewImageHelper_result os dev img w)
    as (w1 & E & Hcall & _ & Hn).
  split_and!.
  - intros Hd Hi Hp.
    assert (G : truthy dev && truthy img && truthy (resolve os w) = true)
      by now rewrite !truthy_nonnull.
    rewrite G in E, Hn. destruct (Hcall G) as (_ & Hl & _).
    exists w1. split_and!; try done. lia.
  - intros r w' E' Hv. rewrite E in E'. inversion E'; subst w'.
    destruct (truthy dev && truthy img && truthy (resolve os w)) eqn:G.
    + lia.
    + split; [done|]. rewrite !andb_false_iff, !truthy_false in G. tauto.
  - intros H.
    assert (G : truthy dev && truthy img && truthy (resolve os w) = false).
    { rewrite !andb_false_iff, !truthy_false. tauto. }
    rewrite G in E, Hn. exists w1. split; [done|lia].
  - intros vendor Hd Hi. unfold returns.
    rewrite Linked_GetLiveViewImageHelper_cases, !truthy_nonnull by done.
    reflexivity.
Qed.

Lemma vendor_result_passed_through_witness :
  (9 ≠ NULL /\ 1 ≠ NULL /\
   resolve (Fixtures.present 5 17%Z) (Fixtures.one_block ImageDataBlockWrapper_ctor)
     ≠ NULL) /\
  exists w',
    Simple.GetLiveViewImageHelper (Fixtures.present 5 17%Z) 9 1
      (Fixtures.one_block ImageDataBlockWrapper_ctor) = Some (17%Z, w').
Proof.
  assert (H1 : 9 ≠ NULL) by (unfold NULL; lia).
  assert (H2 : 1 ≠ NULL) by (unfold NULL; lia).
  assert (H3 : resolve (Fixtures.present 5 17%Z)
                 (Fixtures.one_block ImageDataBlockWrapper_ctor) ≠ NULL)
    by (vm_compute; lia).
  split; [now split_and!|].
  destruct (proj1 (vendor_result_passed_through (Fixtures.present 5 17%Z)
                     (Fixtures.one_block ImageDataBlockWrapper_ctor) 9 1)
              H1 H2 H3) as (w' & E & _).
  exists w'. exact E.
Defined.

(** C2, as the code has it.  A fetch on a null block handle returns the
    generic code, never calls the vendor routine and leaves the heap as it
    was.  When the module handle is already cached nothing at all happens:
    the world is unchanged.  When it is not, the fetch first asks the
    loader for [Cr_Core.dll] and stores the answer in [hSonyDll]; if the
    answer is a module it then looks [GetLiveViewImage] up in it and stores
    that answer in [pGetLiveViewImage] (lines 82-88 precede the test of
    line 94).  These one or two loader calls are all the trace gains, and
    nothing else in the world changes.  In the linked build the world is
    always unchanged. *)
Theorem null_block_fetch (os : Platform) (w : World) (D : ptr) :
  exists w',
    Simple.GetLiveViewImageHelper os D NULL w = Some (CrError_Generic, w') /\
    vendor_calls (trace w') = vendor_calls (trace w) /\
    heap w' = heap w /\
    (hSonyDll w ≠ NULL -> w' = w) /\
    (hSonyDll w = NULL ->
       load_attempts (trace w') = S (load_attempts (trace w))) /\
    (hSonyDll w = NULL ->
       trace w' =
         trace w ++
         EvLoadLibraryA "Cr_Core.dll" (library_at os "Cr_Core.dll") ::
         (if truthy (library_at os "Cr_Core.dll")
          then [EvGetProcAddress (library_at os "Cr_Core.dll")
                  "GetLiveViewImage"
                  (symbol_at os (library_at os "Cr_Core.dll")
                     "GetLiveViewImage")]
          else []) /\
       hSonyDll w' = library_at os "Cr_Core.dll" /\
       pGetLiveViewImage w' =
         (if truthy (library_at os "Cr_Core.dll")
          then symbol_at os (library_at os "Cr_Core.dll") "GetLiveViewImage"
          else pGetLiveViewImage w)) /\
    (forall vendor : CrImageDataBlock,
       Linked.GetLiveViewImageHelper D NULL w = Some (CrError_Generic, w)).
Proof.
  destruct (GetLiveViewImageHelper_result os D NULL w)
    as (w' & E & _ & Hheap & Hn).
  rewrite truthy_NULL, andb_false_r in E, Hheap, Hn. simpl in E, Hn.
  exists w'. split_and!; try done.
  - lia.
  - now apply Hheap.
  - intros Hh. rewrite GetLiveViewImageHelper_cached, forward_cases in E by done.
    rewrite truthy_NULL, andb_false_r in E. simpl in E. congruence.
  - intros Hh.
    now destruct (proj2 (GetLiveViewImageHelper_binding _ _ _ _ _ _ E) Hh)
      as (_ & Ha & _).
  - intros Hh. revert E.
    rewrite GetLiveViewImageHelper_cases, (proj2 (truthy_false _) Hh). simpl.
    destruct (truthy (library_at os "Cr_Core.dll")).
    + destruct (truthy (symbol_at os _ "GetLiveViewImage"));
        rewrite ?forward_cases, ?truthy_NULL, ?andb_false_r; simpl;
        intros E; inversion E; subst w'; simpl; rewrite <- app_assoc; done.
    + intros E; inversion E; subst w'; simpl. done.
  - intros vendor. rewrite Linked_GetLiveViewImageHelper_cases.
    now rewrite truthy_NULL, andb_false_r.
Qed.

Lemma null_block_fetch_witness :
  (hSonyDll (mkWorld ∅ Fixtures.mem0 7340032 7344128 []) ≠ NULL /\
   hSonyDll (initial Fixtures.mem0) = NULL) /\
  Simple.GetLiveViewImageHelper (Fixtures.present 5 0%Z) 9 NULL
    (mkWorld ∅ Fixtures.mem0 7340032 7344128 [])
  = Some (CrError_Generic, mkWorld ∅ Fixtures.mem0 7340032 7344128 []) /\
  exists w',
    Simple.GetLiveViewImageHelper (Fixtures.present 5 0%Z) 9 NULL
      (initial Fixtures.mem0) = Some (CrError_Generic, w') /\
    trace w' = [EvLoadLibraryA "Cr_Core.dll" 7340032;
                EvGetProcAddress 7340032 "GetLiveViewImage" 7344128] /\
    hSonyDll w' = 7340032 /\ pGetLiveViewImage w' = 7344128.
Proof.
  assert (H : hSonyDll (mkWorld ∅ Fixtures.mem0 7340032 7344128 []) ≠ NULL)
    by (simpl; unfold NULL; lia).
  assert (H0 : hSonyDll (initial Fixtures.mem0) = NULL) by reflexivity.
  split; [now split|]. split.
  - destruct (null_block_fetch (Fixtures.present 5 0%Z)
                (mkWorld ∅ Fixtures.mem0 7340032 7344128 []) 9)
      as (w' & E & _ & _ & Hsame & _).
    rewrite <- (Hsame H) at 2. exact E.
  - destruct (null_block_fetch (Fixtures.present 5 0%Z)
                (initial Fixtures.mem0) 9)
      as (w' & E & _ & _ & _ & _ & Hfull & _).
    destruct (Hfull H0) as (Ht & Hm & Hp).
    exists w'. split; [exact E|]. split; [exact Ht|]. split; [exact Hm|exact Hp].
Defined.

(** C2, as stated, fails: at process start, with the library installed, a
    fetch on a null block handle loads the vendor library and resolves the
    symbol before it returns the generic code.  The statics change and the
    trace shows the two loader calls. *)
Lemma null_block_fetch_loads_library :
  exists w',
    Simple.GetLiveViewImageHelper (Fixtures.present 5 0%Z) 9 NULL
      (initial Fixtures.mem0) = Some (CrError_Generic, w') /\
    trace w' = [EvLoadLibraryA "Cr_Core.dll" 7340032;
                EvGetProcAddress 7340032 "GetLiveViewImage" 7344128] /\
    hSonyDll w' = 7340032 /\ pGetLiveViewImage w' = 7344128 /\
    trace w' ≠ trace (initial Fixtures.mem0) /\
    ¬ (forall os w D, exists w1,
         Simple.GetLiveViewImageHelper os D NULL w
           = Some (CrError_Generic, w1) /\ trace w1 = trace w).
Proof.
  eexists. split; [reflexivity|]. simpl. split_and!; try done.
  intros H.
  destruct (H (Fixtures.present 5 0%Z) (initial Fixtures.mem0) 9)
    as (w1 & E & Ht).
  vm_compute in E. inversion E; subst w1. simpl in Ht. discriminate.
Qed.

(** C3.  When no module is cached and the loader does not find the
    library, the fetch returns the generic code and changes neither static:
    the module handle is still null and the function pointer is what it
    was, which in a world the process can reach is null.  The heap is
    untouched and the trace gains the one failed load.  The next fetch asks
    the loader again, whatever its arguments; once the library is there and
    exports the routine, that fetch caches both and, for non-null
    arguments, returns the vendor's value. *)
Theorem load_failure_is_retried (os : Platform) (w : World) (dev img : ptr) :
  hSonyDll w = NULL -> library_at os "Cr_Core.dll" = NULL ->
  exists w',
    Simple.GetLiveViewImageHelper os dev img w = Some (CrError_Generic, w') /\
    hSonyDll w' = NULL /\ pGetLiveViewImage w' = pGetLiveViewImage w /\
    heap w' = heap w /\
    trace w' = trace w ++ [EvLoadLibraryA "Cr_Core.dll" NULL] /\
    (reachable w -> pGetLiveViewImage w' = NULL) /\
    forall (os2 : Platform) (dev2 img2 : ptr),
    exists r w'',
      Simple.GetLiveViewImageHelper os2 dev2 img2 w' = Some (r, w'') /\
      load_attempts (trace w'') = S (load_attempts (trace w')) /\
      hSonyDll w'' = library_at os2 "Cr_Core.dll" /\
      (library_at os2 "Cr_Core.dll" ≠ NULL ->
       symbol_at os2 (library_at os2 "Cr_Core.dll") "GetLiveViewImage" ≠ NULL ->
       pGetLiveViewImage w''
         = symbol_at os2 (library_at os2 "Cr_Core.dll") "GetLiveViewImage" /\
       (dev2 ≠ NULL -> img2 ≠ NULL ->
        r = (routine_at os2 (pGetLiveViewImage w'') dev2 img2 (heap w')).1 /\
        vendor_calls (trace w'') = S (vendor_calls (trace w')))).
Proof.
  intros Hh Hl. rewrite GetLiveViewImageHelper_cases.
  rewrite (proj2 (truthy_false _) Hh). simpl.
  rewrite Hl, truthy_NULL, (load_failed_world _ _ Hh).
  eexists. split; [reflexivity|]. simpl. split_and!; try done.
  - intros R. now apply reachable_binding_inv in R as [I _]; auto.
  - intros os2 dev2 img2.
    set (w' := emit w (EvLoadLibraryA "Cr_Core.dll" NULL)).
    assert (Hh' : hSonyDll w' = NULL) by exact Hh.
    destruct (GetLiveViewImageHelper_result os2 dev2 img2 w')
      as (w2 & E & _ & _ & Hn).
    destruct (proj2 (GetLiveViewImageHelper_binding _ _ _ _ _ _ E) Hh')
      as (Hm & Ha & _ & _ & Hp).
    do 2 eexists. split; [exact E|]. split_and!; try done.
    intros Hlib Hsym. rewrite Hm in Hp. specialize (Hp Hlib).
    split; [exact Hp|]. intros Hd Hi.
    assert (Hr : resolve os2 w'
                 = symbol_at os2 (library_at os2 "Cr_Core.dll") "GetLiveViewImage").
    { unfold resolve. rewrite (proj2 (truthy_false _) Hh').
      now rewrite (truthy_nonnull _ Hlib). }
    rewrite Hr, !truthy_nonnull in Hn by done. simpl in Hn.
    rewrite Hr, !truthy_nonnull, Hp by done. split; [reflexivity|lia].
Qed.

Lemma load_failure_is_retried_witness :
  (hSonyDll (initial Fixtures.mem0) = NULL /\
   library_at Fixtures.absent "Cr_Core.dll" = NULL) /\
  exists w',
    Simple.GetLiveViewImageHelper Fixtures.absent 9 1 (initial Fixtures.mem0)
      = Some (CrError_Generic, w') /\
    hSonyDll w' = NULL /\
    exists r w'',
      Simple.GetLiveViewImageHelper (Fixtures.present 5 0%Z) 9 1 w'
        = Some (r, w'') /\
      hSonyDll w'' = 7340032.
Proof.
  assert (H1 : hSonyDll (initial Fixtures.mem0) = NULL) by reflexivity.
  assert (H2 : library_at Fixtures.absent "Cr_Core.dll" = NULL) by reflexivity.
  split; [now split|].
  destruct (load_failure_is_retried Fixtures.absent (initial Fixtures.mem0) 9 1
              H1 H2) as (w' & E & Hh & _ & _ & _ & _ & Hnext).
  exists w'. split; [exact E|]. split; [exact Hh|].
  destruct (Hnext (Fixtures.present 5 0%Z) 9 1) as (r & w'' & E2 & _ & Hm & _).
  exists r, w''. split; [exact E2|exact Hm].
Defined.

(** C4.  Once a module handle is cached:
    - a fetch returns without asking the loader, and keeps both statics;
      with no function pointer cached it returns the generic code and
      leaves the world as it was;
    - no host program, whatever it calls, makes the bridge ask the loader
      again;
    - counted from process start, the trace of any host program holds at
      most one successful load;
    - in particular a fetch whose load succeeds but whose symbol lookup
      fails caches the module and no function pointer, and after any
      further host program every fetch returns the generic code, changes
      nothing and does not reload. *)
Theorem library_loaded_at_most_once :
  (forall os w dev img,
     hSonyDll w ≠ NULL ->
     exists r w',
       Simple.GetLiveViewImageHelper os dev img w = Some (r, w') /\
       load_attempts (trace w') = load_attempts (trace w) /\
       hSonyDll w' = hSonyDll w /\
       pGetLiveViewImage w' = pGetLiveViewImage w /\
       (pGetLiveViewImage w = NULL -> r = CrError_Generic /\ w' = w)) /\
  (forall cs w w',
     hSonyDll w ≠ NULL -> run cs w = Some (tt, w') ->
     load_attempts (trace w') = load_attempts (trace w) /\
     hSonyDll w' = hSonyDll w /\
     pGetLiveViewImage w' = pGetLiveViewImage w) /\
  (forall w, reachable w -> (loads (trace w) <= 1)%nat) /\
  (forall os w dev img,
     hSonyDll w = NULL ->
     library_at os "Cr_Core.dll" ≠ NULL ->
     symbol_at os (library_at os "Cr_Core.dll") "GetLiveViewImage" = NULL ->
     exists w1,
       Simple.GetLiveViewImageHelper os dev img w
         = Some (CrError_Generic, w1) /\
       hSonyDll w1 = library_at os "Cr_Core.dll" /\
       pGetLiveViewImage w1 = NULL /\
       forall cs w2,
         run cs w1 = Some (tt, w2) ->
         load_attempts (trace w2) = load_attempts (trace w1) /\
         forall os2 dev2 img2,
           Simple.GetLiveViewImageHelper os2 dev2 img2 w2
             = Some (CrError_Generic, w2)).
Proof.
  assert (Hcached : forall os w dev img,
     hSonyDll w ≠ NULL ->
     exists r w',
       Simple.GetLiveViewImageHelper os dev img w = Some (r, w') /\
       load_attempts (trace w') = load_attempts (trace w) /\
       hSonyDll w' = hSonyDll w /\
       pGetLiveViewImage w' = pGetLiveViewImage w /\
       (pGetLiveViewImage w = NULL -> r = CrError_Generic /\ w' = w)).
  { intros os w dev img Hh. rewrite GetLiveViewImageHelper_cached by done.
    destruct (forward_total os dev img w) as (r & w' & E & H1 & H2 & H3 & _ & H5).
    exists r, w'. done. }
  split_and!.
  - exact Hcached.
  - intros cs w w' Hh E.
    destruct (run_cached cs w w' Hh E) as (H1 & H2 & H3 & _). done.
  - intros w R. apply reachable_binding_inv in R as [_ I].
    rewrite I. destruct (truthy (hSonyDll w)); lia.
  - intros os w dev img Hh Hl Hs. rewrite GetLiveViewImageHelper_cases.
    rewrite (proj2 (truthy_false _) Hh). simpl.
    rewrite (truthy_nonnull _ Hl), Hs, truthy_NULL.
    eexists. split; [reflexivity|]. simpl. split_and!; try done.
    intros cs w2 E.
    match type of E with run cs ?x = _ => set (w1 := x) in * end.
    assert (Hh1 : hSonyDll w1 ≠ NULL) by exact Hl.
    destruct (run_cached cs w1 w2 Hh1 E) as (K1 & K2 & K3 & _).
    split; [exact K3|]. intros os2 dev2 img2.
    destruct (Hcached os2 w2 dev2 img2) as (r & w3 & E3 & _ & _ & _ & Hgen);
      [congruence|].
    destruct Hgen as [-> ->]; [rewrite K2; reflexivity|]. exact E3.
Qed.

Lemma library_loaded_at_most_once_witness :
  hSonyDll (mkWorld ∅ Fixtures.mem0 7340032 NULL []) ≠ NULL /\
  exists r w',
    Simple.GetLiveViewImageHelper Fixtures.stripped 9 1
      (mkWorld ∅ Fixtures.mem0 7340032 NULL []) = Some (r, w') /\
    load_attempts (trace w') = 0%nat.
Proof.
  assert (H : hSonyDll (mkWorld ∅ Fixtures.mem0 7340032 NULL []) ≠ NULL)
    by (simpl; unfold NULL; lia).
  split; [exact H|].
  destruct (proj1 library_loaded_at_most_once Fixtures.stripped
              (mkWorld ∅ Fixtures.mem0 7340032 NULL []) 9 1 H)
    as (r & w' & E & Ha & _).
  exists r, w'. split; [exact E|exact Ha].
Defined.

(** * Further properties of the entry points *)

(** ** What the bridge calls, and with what *)

Lemma forward_trace os dev img w r w' :
  Simple.forward os dev img w = Some (r, w') ->
  exists es, trace w' = trace w ++ es /\ Forall event_ok es /\
    symbol_lookups es = 0%nat /\ loads es = 0%nat.
Proof.
  rewrite forward_cases.
  destruct (truthy dev && truthy img && truthy (pGetLiveViewImage w)) eqn:G.
  - rewrite !andb_true_iff, !truthy_true in G. destruct G as [[Hd Hi] _].
    unfold call. intros E. inversion E; subst. simpl.
    eexists. split; [reflexivity|]. split_and!; try done.
    constructor; [split; done|constructor].
  - intros E. inversion E; subst. exists []. rewrite app_nil_r. done.
Qed.

Lemma GetLiveViewImageHelper_trace os dev img w r w' :
  Simple.GetLiveViewImageHelper os dev img w = Some (r, w') ->
  exists es, trace w' = trace w ++ es /\ Forall event_ok es /\
    symbol_lookups es = loads es.
Proof.
  rewrite GetLiveViewImageHelper_cases.
  destruct (truthy (hSonyDll w)); simpl.
  - intros E. apply forward_trace in E as (es & Ht & Hok & H1 & H2).
    exists es. split_and!; try done. congruence.
  - destruct (truthy (library_at os "Cr_Core.dll")) eqn:Hl.
    + assert (Hl' := proj1 (truthy_true _) Hl).
      destruct (truthy (symbol_at os _ "GetLiveViewImage")).
      * intros E. apply forward_trace in E as (es & Ht & Hok & H1 & H2).
        simpl in Ht. rewrite <- !app_assoc in Ht.
        eexists. split; [exact Ht|]. split.
        -- repeat (constructor; [done|]). exact Hok.
        -- unfold symbol_lookups, loads in *. simpl. rewrite Hl, H1, H2. done.
      * intros E. inversion E; subst. simpl. rewrite <- !app_assoc.
        eexists. split; [reflexivity|]. split.
        -- repeat (constructor; [done|]). constructor.
        -- unfold symbol_lookups, loads. simpl. now rewrite Hl.
    + intros E. inversion E; subst. simpl.
      eexists. split; [reflexivity|]. split.
      * repeat (constructor; [done|]). constructor.
      * unfold symbol_lookups, loads. simpl. now rewrite Hl.
Qed.

Lemma block_call_trace c w w' :
  is_fetch c = false -> exec c w = Some (tt, w') ->
  exists es, trace w' = trace w ++ es /\ Forall event_ok es /\
    symbol_lookups es = loads es.
Proof.
  intros Hc E. destruct c; try discriminate; simpl in E;
    revert E; unfold Simple.CreateImageDataBlock; entry;
    unfold mbind, M_bind, bind, mret, M_ret, ret, new_wrapper, delete_wrapper,
      deref, assign, memcpy.
  all: try (repeat match goal with
           | |- context [if truthy ?c then _ else _] => destruct (truthy c)
           | |- context [match blocks ?w0 !! ?h with _ => _ end] =>
               destruct (blocks w0 !! h)
           end;
    intros E; inversion E; subst; simpl;
    exists []; rewrite app_nil_r; done).
  destruct (truthy h && truthy dest) eqn:G1; simpl.
  - destruct (blocks w !! h) as [b|]; [|discriminate].
    destruct (truthy (pData b) && (0 <? imageSize b) && (imageSize b <=? capacity))
      eqn:G2; intros E; inversion E; subst; simpl.
    + apply guard_true in G2. apply andb_true_iff in G1.
      rewrite !truthy_true in G1.
      eexists. split; [reflexivity|]. split; [|done].
      constructor; [|constructor]. simpl. tauto.
    + exists []. rewrite app_nil_r. done.
  - intros E; inversion E; subst. exists []. rewrite app_nil_r. done.
Qed.

Lemma exec_trace c w w' :
  exec c w = Some (tt, w') ->
  exists es, trace w' = trace w ++ es /\ Forall event_ok es /\
    symbol_lookups es = loads es.
Proof.
  destruct (is_fetch c) eqn:Hc; [|now apply block_call_trace].
  destruct c; try discriminate. simpl. intros E.
  apply bind_inv in E as (r & w1 & E & E1). inversion E1; subst.
  now apply GetLiveViewImageHelper_trace in E.
Qed.

Lemma count_app f t1 t2 : count f (t1 ++ t2) = (count f t1 + count f t2)%nat.
Proof. induction t1 as [|x t1 IH]; simpl; [|rewrite IH]; lia. Qed.

Lemma run_trace cs : forall w w',
  run cs w = Some (tt, w') ->
  exists es, trace w' = trace w ++ es /\ Forall event_ok es /\
    symbol_lookups es = loads es.
Proof.
  induction cs as [|c cs IH]; intros w w' E; simpl in E.
  - inversion E; subst. exists []. rewrite app_nil_r. done.
  - apply bind_inv in E as ([] & w1 & E1 & E2).
    apply exec_trace in E1 as (es1 & Ht1 & Hok1 & Hc1).
    apply IH in E2 as (es2 & Ht2 & Hok2 & Hc2).
    exists (es1 ++ es2). rewrite Ht2, Ht1, app_assoc. split_and!; try done.
    + now apply Forall_app.
    + unfold symbol_lookups, loads in *. rewrite !count_app. lia.
Qed.

Lemma reachable_trace w :
  reachable w -> Forall event_ok (trace w) /\
                 symbol_lookups (trace w) = loads (trace w).
Proof.
  intros (mem & cs & E). apply run_trace in E as (es & Ht & Hok & Hc).
  simpl in Ht. now rewrite Ht.
Qed.

(** X1.  In every world a process reaches, each call of the vendor routine
    recorded in the trace was made with a non-null device handle and a
    non-null block handle. *)
Theorem vendor_never_called_with_null (w : World) :
  reachable w ->
  forall deviceHandle imageData result,
    EvGetLiveViewImage deviceHandle imageData result ∈ trace w ->
    deviceHandle ≠ NULL /\ imageData ≠ NULL.
Proof.
  intros R d i r Hin. apply reachable_trace in R as [Hok _].
  rewrite Forall_forall in Hok. exact (Hok _ Hin).
Qed.

Lemma vendor_never_called_with_null_witness :
  exists w,
    run Sessions.happy (initial Fixtures.mem0) = Some (tt, w) /\
    EvGetLiveViewImage 9 1 0%Z ∈ trace w /\ (9 ≠ NULL /\ 1 ≠ NULL).
Proof.
  eexists. split; [reflexivity|].
  match goal with |- _ ∈ trace ?W /\ _ =>
    assert (R : reachable W) by (exists Fixtures.mem0, Sessions.happy; reflexivity)
  end.
  match goal with |- ?e ∈ ?t /\ _ =>
    assert (H : e ∈ t) by (vm_compute; repeat constructor)
  end.
  split; [exact H|]. exact (vendor_never_called_with_null _ R 9 1 0%Z H).
Defined.


(** X2.  In every world a process reaches, each [memcpy] recorded in the
    trace had a non-null destination, a non-null source and a positive
    count. *)
Theorem memcpy_never_null_or_empty (w : World) :
  reachable w ->
  forall dest src count,
    EvMemcpy dest src count ∈ trace w ->
    dest ≠ NULL /\ src ≠ NULL /\ 0 < count.
Proof.
  intros R d s k Hin. apply reachable_trace in R as [Hok _].
  rewrite Forall_forall in Hok. exact (Hok _ Hin).
Qed.

Lemma memcpy_never_null_or_empty_witness :
  exists w,
    run Sessions.happy (initial Fixtures.mem0) = Some (tt, w) /\
    EvMemcpy 10 4096 5 ∈ trace w /\ (10 ≠ NULL /\ 4096 ≠ NULL /\ 0 < 5).
Proof.
  eexists. split; [reflexivity|].
  match goal with |- _ ∈ trace ?W /\ _ =>
    assert (R : reachable W) by (exists Fixtures.mem0, Sessions.happy; reflexivity)
  end.
  match goal with |- ?e ∈ ?t /\ _ =>
    assert (H : e ∈ t) by (vm_compute; repeat constructor)
  end.
  split; [exact H|]. exact (memcpy_never_null_or_empty _ R 10 4096 5 H).
Defined.


(** X3.  In every world a process reaches, the loader was only ever asked
    for the file [Cr_Core.dll], a symbol was only ever looked up under the
    name [GetLiveViewImage] and in a non-null module, and there is one
    symbol lookup for each successful load: at most one per process. *)
Theorem loader_requests (w : World) :
  reachable w ->
  (forall name h, EvLoadLibraryA name h ∈ trace w -> name = "Cr_Core.dll") /\
  (forall h name p,
     EvGetProcAddress h name p ∈ trace w ->
     h ≠ NULL /\ name = "GetLiveViewImage") /\
  symbol_lookups (trace w) = loads (trace w) /\
  (symbol_lookups (trace w) <= 1)%nat.
Proof.
  intros R. pose proof (reachable_binding_inv w R) as [_ I].
  apply reachable_trace in R as [Hok Hc]. rewrite Forall_forall in Hok.
  split_and!.
  - intros name h Hin. exact (Hok _ Hin).
  - intros h name p Hin. exact (Hok _ Hin).
  - exact Hc.
  - rewrite Hc, I. destruct (truthy (hSonyDll w)); lia.
Qed.

Lemma loader_requests_witness :
  exists w,
    run Sessions.happy (initial Fixtures.mem0) = Some (tt, w) /\
    symbol_lookups (trace w) = loads (trace w) /\
    (symbol_lookups (trace w) <= 1)%nat.
Proof.
  eexists. split; [reflexivity|].
  match goal with |- symbol_lookups (trace ?W) = _ /\ _ =>
    assert (R : reachable W) by (exists Fixtures.mem0, Sessions.happy; reflexivity)
  end.
  destruct (loader_requests _ R) as (_ & _ & H1 & H2).
  split; [exact H1|exact H2].
Defined.


(** The fetch that binds leaves in the trace what it cached. *)
Lemma GetLiveViewImageHelper_provenance os dev img w r w' :
  Simple.GetLiveViewImageHelper os dev img w = Some (r, w') ->
  hSonyDll w = NULL -> hSonyDll w' ≠ NULL ->
  EvLoadLibraryA "Cr_Core.dll" (hSonyDll w') ∈ trace w' /\
  EvGetProcAddress (hSonyDll w') "GetLiveViewImage" (pGetLiveViewImage w')
    ∈ trace w'.
Proof.
  intros E Hh Hh'. pose proof E as E0. revert E.
  rewrite GetLiveViewImageHelper_cases, (proj2 (truthy_false _) Hh). simpl.
  destruct (truthy (library_at os "Cr_Core.dll")) eqn:Hl.
  - destruct (truthy (symbol_at os _ "GetLiveViewImage")).
    + intros E.
      match type of E with Simple.forward os dev img ?x = _ =>
        destruct (forward_total os dev img x) as (r0 & w0 & E1 & H1 & H2 & _)
      end.
      rewrite E1 in E. inversion E; subst r0 w0. clear E.
      apply forward_trace in E1 as (es & Ht & _).
      rewrite H1, H2, Ht. simpl. set_solver.
    + intros E. inversion E; subst. simpl. set_solver.
  - intros E. inversion E; subst. simpl in Hh'. apply truthy_false in Hl.
    congruence.
Qed.

Lemma exec_bound_from_loader c w w' :
  bound_from_loader w -> exec c w = Some (tt, w') -> bound_from_loader w'.
Proof.
  intros I E Hh'. destruct (decide (hSonyDll w = NULL)) as [Hn|Hn].
  - destruct c;
      try (apply exec_block_call in E; [|discriminate];
           destruct E as (E & _); congruence).
    simpl in E. apply bind_inv in E as (r & w1 & E & E1). inversion E1; subst.
    now apply (GetLiveViewImageHelper_provenance _ _ _ _ _ _ E).
  - destruct (exec_cached c w w' Hn E) as (-> & -> & _).
    apply exec_trace in E as (es & -> & _).
    destruct (I Hn) as [I1 I2]. set_solver.
Qed.

Lemma run_bound_from_loader cs : forall w w',
  bound_from_loader w -> run cs w = Some (tt, w') -> bound_from_loader w'.
Proof.
  induction cs as [|c cs IH]; intros w w' I E; simpl in E.
  - inversion E; subst. done.
  - apply bind_inv in E as ([] & w1 & E1 & E2).
    apply (IH w1 w'); [|exact E2]. now apply (exec_bound_from_loader c w).
Qed.

(** X4.  In every world a process reaches, a cached module handle is the
    answer the loader gave for [Cr_Core.dll], and the cached function
    pointer is the answer it gave for [GetLiveViewImage] in that module:
    both calls are in the trace with these results. *)
Theorem statics_are_loader_answers (w : World) :
  reachable w -> hSonyDll w ≠ NULL ->
  EvLoadLibraryA "Cr_Core.dll" (hSonyDll w) ∈ trace w /\
  EvGetProcAddress (hSonyDll w) "GetLiveViewImage" (pGetLiveViewImage w)
    ∈ trace w.
Proof.
  intros (mem & cs & E).
  apply (run_bound_from_loader cs (initial mem) w); [|exact E].
  intros H. now destruct H.
Qed.

Lemma statics_are_loader_answers_witness :
  exists w,
    run Sessions.happy (initial Fixtures.mem0) = Some (tt, w) /\
    hSonyDll w ≠ NULL /\
    EvLoadLibraryA "Cr_Core.dll" (hSonyDll w) ∈ trace w.
Proof.
  eexists. split; [reflexivity|].
  match goal with |- hSonyDll ?W ≠ _ /\ _ =>
    assert (R : reachable W) by (exists Fixtures.mem0, Sessions.happy; reflexivity);
    assert (H : hSonyDll W ≠ NULL) by (vm_compute; lia)
  end.
  split; [exact H|]. exact (proj1 (statics_are_loader_answers _ R H)).
Defined.


(** ** Before the first fetch *)

Lemma block_call_unfetched c w w' :
  is_fetch c = false -> unfetched w -> exec c w = Some (tt, w') ->
  unfetched w' /\ trace w' = trace w /\ bytes w' = bytes w.
Proof.
  intros Hc U E. destruct c; try discriminate; simpl in E;
    revert E; unfold Simple.CreateImageDataBlock; entry;
    unfold mbind, M_bind, bind, mret, M_ret, ret, new_wrapper, delete_wrapper,
      deref, assign, memcpy.
  - intros E. inversion E; subst. simpl. split; [|done].
    intros h b. simpl. rewrite lookup_insert.
    case_decide; [intros [= <-]; reflexivity|apply U].
  - destruct (truthy h); [|intros E; inversion E; subst; auto].
    destruct (blocks w !! h); [|discriminate].
    intros E. inversion E; subst. simpl. split; [|done].
    intros h' b. simpl. rewrite lookup_delete.
    case_decide; [discriminate|apply U].
  - destruct (truthy h); [|intros E; inversion E; subst; auto].
    destruct (blocks w !! h) as [b0|] eqn:Hb; [|discriminate].
    rewrite Hb. intros E. inversion E; subst. simpl. split; [|done].
    intros h' b. simpl. rewrite lookup_insert.
    case_decide; [intros [= <-]; simpl; now apply (U h)|apply U].
  - destruct (truthy h); [|intros E; inversion E; subst; auto].
    destruct (blocks w !! h) as [b0|] eqn:Hb; [|discriminate].
    rewrite Hb. intros E. inversion E; subst. simpl. split; [|done].
    intros h' b. simpl. rewrite lookup_insert.
    case_decide; [intros [= <-]; simpl; now apply (U h)|apply U].
  - destruct (truthy h); [|intros E; inversion E; subst; auto].
    destruct (blocks w !! h); [|discriminate].
    intros E. inversion E; subst. auto.
  - destruct (truthy h); [|intros E; inversion E; subst; auto].
    destruct (blocks w !! h); [|discriminate].
    intros E. inversion E; subst. auto.
  - destruct (truthy h && truthy dest); [|intros E; inversion E; subst; auto].
    destruct (blocks w !! h) as [b0|] eqn:Hb; [|discriminate].
    rewrite (U h b0 Hb). simpl. rewrite andb_false_r. simpl.
    intros E. inversion E; subst. auto.
Qed.

(** X5.  Until a fetch is made no frame is ever copied: a host program
    without a fetch, started where every block has [imageSize = 0] (as at
    process start), calls [memcpy] never, leaves the byte memory and the
    trace as they were, and every block it leaves still has
    [imageSize = 0], so [GetImageDataBlockImageSize] returns 0 on it. *)
Theorem no_copy_before_fetch (cs : list HostCall) : forall (w w' : World),
  unfetched w -> fetch_free cs = true -> run cs w = Some (tt, w') ->
  unfetched w' /\ trace w' = trace w /\ bytes w' = bytes w /\
  (forall h b, blocks w' !! h = Some b ->
     returns (Simple.GetImageDataBlockImageSize h) w' = Some 0).
Proof.
  induction cs as [|c cs IH]; intros w w' U F E; simpl in *.
  - inversion E; subst. split_and!; try done.
    intros h b Hb. unfold returns. entry.
    destruct (truthy h); [|done].
    rewrite (bind_Some _ _ _ _ _ (deref_live _ _ _ Hb)). simpl.
    now rewrite (U h b Hb).
  - apply andb_true_iff in F as [Fc F]. apply negb_true_iff in Fc.
    apply bind_inv in E as ([] & w1 & E1 & E2).
    destruct (block_call_unfetched c w w1 Fc U E1) as (U1 & T1 & B1).
    destruct (IH w1 w' U1 F E2) as (U' & T' & B' & G').
    split_and!; try done; congruence.
Qed.

Lemma no_copy_before_fetch_witness :
  (unfetched (initial Fixtures.mem0) /\
   fetch_free [Create; SetBlockSize 1 64; SetBlockData 1 4096; Copy 1 10 64]
     = true) /\
  exists w',
    run [Create; SetBlockSize 1 64; SetBlockData 1 4096; Copy 1 10 64]
      (initial Fixtures.mem0) = Some (tt, w') /\
    trace w' = [].
Proof.
  assert (H1 : unfetched (initial Fixtures.mem0)).
  { intros h b Hb. simpl in Hb. rewrite lookup_empty in Hb. discriminate. }
  assert (H2 : fetch_free [Create; SetBlockSize 1 64; SetBlockData 1 4096;
                           Copy 1 10 64] = true) by reflexivity.
  split; [now split|].
  eexists. split; [reflexivity|].
  refine (proj1 (proj2 (no_copy_before_fetch _ _ _ H1 H2 _))). reflexivity.
Defined.

(** The create, spelled out. *)
Lemma CreateImageDataBlock_fresh w :
  exists h, h ≠ NULL /\ blocks w !! h = None /\
    Simple.CreateImageDataBlock w
    = Some (h, with_blocks w (<[h := ImageDataBlockWrapper_ctor]> (blocks w))).
Proof.
  unfold Simple.CreateImageDataBlock, new_wrapper.
  set (p := fresh ({[NULL]} ∪ dom (blocks w) : gset N)).
  assert (Hp : p ∉ ({[NULL]} ∪ dom (blocks w) : gset N)) by apply is_fresh.
  exists p. split_and!; [set_solver|apply not_elem_of_dom; set_solver|done].
Qed.

(** ** Create, set, destroy *)

Lemma run_app cs1 cs2 w :
  run (cs1 ++ cs2) w = (run cs1 ≫= fun _ => run cs2) w.
Proof.
  revert w. induction cs1 as [|c cs1 IH]; intros w; simpl.
  - reflexivity.
  - unfold mbind, M_bind, bind in *. destruct (exec c w) as [[[] w1]|]; [|done].
    apply IH.
Qed.

(** A run of setters on [h] rewrites the block at [h] and nothing else. *)
Lemma run_setters (w : World) (h : ptr) (cs : list HostCall) :
  h ≠ NULL -> forallb (is_setter_on h) cs = true ->
  forall b, exists b',
    run cs (with_blocks w (<[h := b]> (blocks w)))
    = Some (tt, with_blocks w (<[h := b']> (blocks w))) /\
    imageSize b' = imageSize b.
Proof.
  intros Hh. induction cs as [|c cs IH]; intros F b; simpl in *.
  - now exists b.
  - apply andb_true_iff in F as [Fc F].
    set (w1 := with_blocks w (<[h := b]> (blocks w))).
    assert (Hb : blocks w1 !! h = Some b) by apply lookup_insert_eq.
    destruct (@Linked_setters_live (mirror idle) w1 h b Hh Hb) as [Hs Hd].
    destruct c; try discriminate; simpl in Fc; apply N.eqb_eq in Fc; subst h0.
    + destruct (IH F (assign_size b n)) as (b' & E & Hi). exists b'.
      split; [|exact Hi]. simpl.
      change (Simple.SetImageDataBlockSize h n)
        with (@Linked.SetImageDataBlockSize (mirror idle) h n).
      rewrite (bind_Some _ _ _ _ _ (Hs n)). simpl.
      unfold w1, with_blocks at 1. simpl. rewrite insert_insert_eq. exact E.
    + destruct (IH F (assign_pData b p)) as (b' & E & Hi). exists b'.
      split; [|exact Hi]. simpl.
      change (Simple.SetImageDataBlockData h p)
        with (@Linked.SetImageDataBlockData (mirror idle) h p).
      rewrite (bind_Some _ _ _ _ _ (Hd p)). simpl.
      unfold w1, with_blocks at 1. simpl. rewrite insert_insert_eq. exact E.
Qed.

(** X6.  Nothing is leaked: creating a block, calling the two setters on
    its handle any number of times in any order, and destroying it is
    defined and leaves the world exactly as it was before the create. *)
Theorem create_set_destroy_restores (w w1 : World) (h : ptr)
    (cs : list HostCall) :
  Simple.CreateImageDataBlock w = Some (h, w1) ->
  forallb (is_setter_on h) cs = true ->
  run (cs ++ [Destroy h]) w1 = Some (tt, w).
Proof.
  intros E F.
  destruct (CreateImageDataBlock_fresh w) as (h0 & Hnn & Hnew & E0).
  rewrite E0 in E. inversion E; subst h0 w1. clear E.
  destruct (run_setters w h cs Hnn F ImageDataBlockWrapper_ctor)
    as (b' & Er & _).
  rewrite run_app, (bind_Some _ _ _ _ _ Er). simpl.
  unfold Simple.DestroyImageDataBlock. rewrite (truthy_nonnull _ Hnn).
  unfold mbind, M_bind, bind, delete_wrapper. simpl.
  rewrite lookup_insert_eq. simpl.
  unfold with_blocks. simpl. rewrite (delete_insert_id _ _ _ Hnew).
  now destruct w.
Qed.

Lemma create_set_destroy_restores_witness :
  (Simple.CreateImageDataBlock (initial Fixtures.mem0)
     = Some (1, Fixtures.one_block ImageDataBlockWrapper_ctor) /\
   forallb (is_setter_on 1) [SetBlockSize 1 64; SetBlockData 1 4096;
                             SetBlockSize 1 128] = true) /\
  run ([SetBlockSize 1 64; SetBlockData 1 4096; SetBlockSize 1 128]
       ++ [Destroy 1]) (Fixtures.one_block ImageDataBlockWrapper_ctor)
  = Some (tt, initial Fixtures.mem0).
Proof.
  assert (H1 : Simple.CreateImageDataBlock (initial Fixtures.mem0)
               = Some (1, Fixtures.one_block ImageDataBlockWrapper_ctor))
    by reflexivity.
  assert (H2 : forallb (is_setter_on 1) [SetBlockSize 1 64; SetBlockData 1 4096;
                                         SetBlockSize 1 128] = true)
    by reflexivity.
  split; [now split|].
  exact (create_set_destroy_restores _ _ 1 _ H1 H2).
Defined.

(** ** How the setters and the copy compose *)

(** X7.  The copy never reads the [size] field: on a live block,
    [SetImageDataBlockSize] followed by [CopyImageData] leaves the same
    world as [CopyImageData] followed by [SetImageDataBlockSize], and the
    bytes and the trace are those the copy alone leaves.  Only the
    capacity passed to the copy bounds it. *)
Theorem copy_ignores_size_field (w : World) (h d : ptr) (m n : CrInt32u)
    (b : ImageDataBlockWrapper) :
  h ≠ NULL -> blocks w !! h = Some b ->
  exists w1 w2 w12,
    Simple.SetImageDataBlockSize h m w = Some (tt, w1) /\
    Simple.CopyImageData h d n w = Some (tt, w2) /\
    Simple.CopyImageData h d n w1 = Some (tt, w12) /\
    Simple.SetImageDataBlockSize h m w2 = Some (tt, w12) /\
    trace w12 = trace w2 /\ bytes w12 = bytes w2.
Proof.
  intros Hh Hb.
  destruct (@Linked_setters_live (mirror idle) w h b Hh Hb) as [Hs _].
  set (w1 := with_blocks w (<[h := assign_size b m]> (blocks w))).
  assert (Hb1 : blocks w1 !! h = Some (assign_size b m))
    by apply lookup_insert_eq.
  pose proof (@Linked_CopyImageData_live (mirror idle) w h d n b Hh Hb) as Hc.
  pose proof (@Linked_CopyImageData_live (mirror idle) w1 h d n _ Hh Hb1) as Hc1.
  change (@Linked.CopyImageData (mirror idle)) with Simple.CopyImageData
    in Hc, Hc1.
  change (@Linked.SetImageDataBlockSize (mirror idle))
    with Simple.SetImageDataBlockSize in Hs.
  simpl in Hc, Hc1.
  destruct (truthy d && (truthy (pData b) && (0 <? imageSize b)
                         && (imageSize b <=? n))).
  - eexists w1, _, _. split_and!; [apply Hs|exact Hc|exact Hc1| |done|done].
    match goal with |- _ _ _ ?x = _ =>
      destruct (@Linked_setters_live (mirror idle) x h b Hh Hb) as [Hs2 _] end.
    exact (Hs2 m).
  - eexists w1, _, _. split_and!; [apply Hs|exact Hc|exact Hc1|apply Hs|done|done].
Qed.

Lemma copy_ignores_size_field_witness :
  (1 ≠ NULL /\
   blocks (Fixtures.one_block (mkBlock 3 2 4096 5 0)) !! 1
     = Some (mkBlock 3 2 4096 5 0)) /\
  exists w1 w12,
    Simple.SetImageDataBlockSize 1 4 (Fixtures.one_block (mkBlock 3 2 4096 5 0))
      = Some (tt, w1) /\
    Simple.CopyImageData 1 10 8 w1 = Some (tt, w12) /\
    trace w12 = [EvMemcpy 10 4096 5].
Proof.
  assert (H1 : 1 ≠ NULL) by (unfold NULL; lia).
  assert (H2 : blocks (Fixtures.one_block (mkBlock 3 2 4096 5 0)) !! 1
               = Some (mkBlock 3 2 4096 5 0)) by reflexivity.
  split; [now split|].
  destruct (copy_ignores_size_field _ 1 10 4 8 _ H1 H2)
    as (w1 & w2 & w12 & E1 & E2 & E3 & _ & Ht & _).
  exists w1, w12. split; [exact E1|]. split; [exact E3|].
  rewrite Ht. vm_compute in E2. now inversion E2.
Defined.


(** X8.  On a live block the later write of a field wins, and writes of
    the two fields commute. *)
Theorem setters_compose (w : World) (h : ptr) (b : ImageDataBlockWrapper)
    (n1 n2 : CrInt32u) (p1 p2 : ptr) :
  h ≠ NULL -> blocks w !! h = Some b ->
  run [SetBlockSize h n1; SetBlockSize h n2] w = run [SetBlockSize h n2] w /\
  run [SetBlockData h p1; SetBlockData h p2] w = run [SetBlockData h p2] w /\
  run [SetBlockSize h n1; SetBlockData h p1] w
    = run [SetBlockData h p1; SetBlockSize h n1] w /\
  is_Some (run [SetBlockSize h n1; SetBlockData h p1] w).
Proof.
  intros Hh Hb.
  destruct (@Linked_setters_live (mirror idle) w h b Hh Hb) as [Hs Hd].
  change (@Linked.SetImageDataBlockSize (mirror idle))
    with Simple.SetImageDataBlockSize in Hs.
  change (@Linked.SetImageDataBlockData (mirror idle))
    with Simple.SetImageDataBlockData in Hd.
  assert (Hnext : forall b0,
    (forall n, Simple.SetImageDataBlockSize h n
                 (with_blocks w (<[h := b0]> (blocks w)))
       = Some (tt, with_blocks w (<[h := assign_size b0 n]> (blocks w)))) /\
    (forall p, Simple.SetImageDataBlockData h p
                 (with_blocks w (<[h := b0]> (blocks w)))
       = Some (tt, with_blocks w (<[h := assign_pData b0 p]> (blocks w))))).
  { intros b0.
    destruct (@Linked_setters_live (mirror idle)
                (with_blocks w (<[h := b0]> (blocks w))) h b0 Hh)
      as [Hs' Hd']; [apply lookup_insert_eq|].
    split; intros x;
      [refine (eq_trans (Hs' x) _)|refine (eq_trans (Hd' x) _)];
      unfold with_blocks; simpl; now rewrite insert_insert_eq. }
  simpl.
  rewrite !(bind_Some _ _ _ _ _ (Hs _)), !(bind_Some _ _ _ _ _ (Hd _)).
  rewrite !(bind_Some _ _ _ _ _ (proj1 (Hnext _) _)),
          !(bind_Some _ _ _ _ _ (proj2 (Hnext _) _)).
  split_and!; try done; eauto.
Qed.

Lemma setters_compose_witness :
  (1 ≠ NULL /\
   blocks (Fixtures.one_block ImageDataBlockWrapper_ctor) !! 1
     = Some ImageDataBlockWrapper_ctor) /\
  run [SetBlockSize 1 64; SetBlockData 1 4096]
    (Fixtures.one_block ImageDataBlockWrapper_ctor)
  = run [SetBlockData 1 4096; SetBlockSize 1 64]
      (Fixtures.one_block ImageDataBlockWrapper_ctor).
Proof.
  assert (H1 : 1 ≠ NULL) by (unfold NULL; lia).
  assert (H2 : blocks (Fixtures.one_block ImageDataBlockWrapper_ctor) !! 1
               = Some ImageDataBlockWrapper_ctor) by reflexivity.
  split; [now split|].
  destruct (setters_compose _ 1 _ 64 64 4096 4096 H1 H2) as (_ & _ & H & _).
  exact H.
Defined.


(** ** More on the fetch *)

(** X9.  A fetch on a null device handle returns the generic code, never
    calls the vendor routine and leaves the heap as it was; with a cached
    module handle, and always in the linked build, the world is
    unchanged. *)
Theorem null_device_fetch (os : Platform) (w : World) (img : ptr) :
  exists w',
    Simple.GetLiveViewImageHelper os NULL img w = Some (CrError_Generic, w') /\
    vendor_calls (trace w') = vendor_calls (trace w) /\
    heap w' = heap w /\
    (hSonyDll w ≠ NULL -> w' = w) /\
    (forall vendor : CrImageDataBlock,
       Linked.GetLiveViewImageHelper NULL img w = Some (CrError_Generic, w)).
Proof.
  destruct (GetLiveViewImageHelper_result os NULL img w)
    as (w' & E & _ & Hheap & Hn).
  rewrite truthy_NULL in E, Hheap, Hn. simpl in E, Hheap, Hn.
  exists w'. split_and!; try done.
  - lia.
  - now apply Hheap.
  - intros Hh. rewrite GetLiveViewImageHelper_cached, forward_cases in E by done.
    rewrite truthy_NULL in E. simpl in E. congruence.
Qed.

Lemma null_device_fetch_witness :
  hSonyDll (mkWorld ∅ Fixtures.mem0 7340032 7344128 []) ≠ NULL /\
  Simple.GetLiveViewImageHelper (Fixtures.present 5 0%Z) NULL 1
    (mkWorld ∅ Fixtures.mem0 7340032 7344128 [])
  = Some (CrError_Generic, mkWorld ∅ Fixtures.mem0 7340032 7344128 []).
Proof.
  assert (H : hSonyDll (mkWorld ∅ Fixtures.mem0 7340032 7344128 []) ≠ NULL)
    by (simpl; unfold NULL; lia).
  split; [exact H|].
  destruct (null_device_fetch (Fixtures.present 5 0%Z)
              (mkWorld ∅ Fixtures.mem0 7340032 7344128 []) 1)
    as (w' & E & _ & _ & Hsame & _).
  rewrite <- (Hsame H) at 2. exact E.
Defined.


(** X10.  Once both statics are set, the fetch of the run-time-binding
    build is the fetch of the linked build whose imported routine is the
    code behind the cached pointer; and with the vendor methods read as
    field accesses the other seven entry points of the two builds are the
    same functions. *)
Theorem bound_build_is_linked_build (os : Platform) (w : World)
    (dev img : ptr) :
  hSonyDll w ≠ NULL -> pGetLiveViewImage w ≠ NULL ->
  Simple.GetLiveViewImageHelper os dev img w
  = @Linked.GetLiveViewImageHelper
      (mirror (routine_at os (pGetLiveViewImage w))) dev img w /\
  (forall f,
     @Linked.CreateImageDataBlock (mirror f) = Simple.CreateImageDataBlock /\
     @Linked.DestroyImageDataBlock = Simple.DestroyImageDataBlock /\
     @Linked.SetImageDataBlockSize (mirror f) = Simple.SetImageDataBlockSize /\
     @Linked.SetImageDataBlockData (mirror f) = Simple.SetImageDataBlockData /\
     @Linked.GetImageDataBlockImageSize (mirror f)
       = Simple.GetImageDataBlockImageSize /\
     @Linked.GetImageDataBlockImageData (mirror f)
       = Simple.GetImageDataBlockImageData /\
     @Linked.CopyImageData (mirror f) = Simple.CopyImageData).
Proof.
  intros Hh Hp. split; [|exact Linked_mirror_block_store].
  rewrite GetLiveViewImageHelper_cached, forward_cases by done.
  rewrite Linked_GetLiveViewImageHelper_cases, (truthy_nonnull _ Hp).
  rewrite andb_true_r. reflexivity.
Qed.

Lemma bound_build_is_linked_build_witness :
  (hSonyDll (mkWorld ∅ Fixtures.mem0 7340032 7344128 []) ≠ NULL /\
   pGetLiveViewImage (mkWorld ∅ Fixtures.mem0 7340032 7344128 []) ≠ NULL) /\
  Simple.GetLiveViewImageHelper (Fixtures.present 5 17%Z) 9 1
    (mkWorld ∅ Fixtures.mem0 7340032 7344128 [])
  = @Linked.GetLiveViewImageHelper (mirror (Fixtures.report 5 17%Z)) 9 1
      (mkWorld ∅ Fixtures.mem0 7340032 7344128 []).
Proof.
  assert (H1 : hSonyDll (mkWorld ∅ Fixtures.mem0 7340032 7344128 []) ≠ NULL)
    by (simpl; unfold NULL; lia).
  assert (H2 : pGetLiveViewImage (mkWorld ∅ Fixtures.mem0 7340032 7344128 [])
               ≠ NULL) by (simpl; unfold NULL; lia).
  split; [now split|].
  exact (proj1 (bound_build_is_linked_build (Fixtures.present 5 17%Z)
                  (mkWorld ∅ Fixtures.mem0 7340032 7344128 []) 9 1 H1 H2)).
Defined.


(** X11.  A fetch changes blocks and bytes only through the vendor
    routine: either no vendor call is made and the heap is as before, or
    exactly one is made, the value returned is the routine's and the heap
    is the one the routine left. *)
Theorem fetch_heap_only_through_vendor (os : Platform) (w w' : World)
    (dev img : ptr) (r : CrError) :
  Simple.GetLiveViewImageHelper os dev img w = Some (r, w') ->
  (vendor_calls (trace w') = vendor_calls (trace w) /\
   heap w' = heap w /\ r = CrError_Generic) \/
  (vendor_calls (trace w') = S (vendor_calls (trace w)) /\
   heap w' = (routine_at os (resolve os w) dev img (heap w)).2 /\
   r = (routine_at os (resolve os w) dev img (heap w)).1).
Proof.
  intros E.
  destruct (GetLiveViewImageHelper_result os dev img w)
    as (w1 & E1 & Hcall & Hno & Hn).
  rewrite E in E1. inversion E1; subst w1. clear E1.
  destruct (truthy dev && truthy img && truthy (resolve os w)).
  - right. destruct (Hcall eq_refl) as (_ & _ & Hh). split_and!; try done. lia.
  - left. split_and!; try done; [lia|now apply Hno].
Qed.

Lemma fetch_heap_only_through_vendor_witness :
  exists w',
    Simple.GetLiveViewImageHelper Fixtures.absent 9 1 (initial Fixtures.mem0)
      = Some (CrError_Generic, w') /\
    heap w' = heap (initial Fixtures.mem0).
Proof.
  eexists. split; [reflexivity|].
  match goal with |- heap ?W = _ =>
    destruct (fetch_heap_only_through_vendor Fixtures.absent
                (initial Fixtures.mem0) W 9 1 CrError_Generic eq_refl)
      as [(_ & H & _)|(H & _)]
  end.
  - exact H.
  - vm_compute in H. discriminate.
Defined.


Lemma size_getter_agrees (w1 w2 : World) (h : ptr) :
  imageSize <$> blocks w1 !! h = imageSize <$> blocks w2 !! h ->
  returns (Simple.GetImageDataBlockImageSize h) w1
    = returns (Simple.GetImageDataBlockImageSize h) w2.
Proof.
  intros Hs. unfold returns. entry. destruct (truthy h); [|done].
  unfold mbind, M_bind, bind, deref, mret, M_ret, ret.
  destruct (blocks w1 !! h) as [b1|], (blocks w2 !! h) as [b2|];
    simpl in *; congruence.
Qed.

Lemma data_getter_agrees (w1 w2 : World) (h : ptr) :
  pData <$> blocks w1 !! h = pData <$> blocks w2 !! h ->
  returns (Simple.GetImageDataBlockImageData h) w1
    = returns (Simple.GetImageDataBlockImageData h) w2.
Proof.
  intros Hs. unfold returns. entry. destruct (truthy h); [|done].
  unfold mbind, M_bind, bind, deref, mret, M_ret, ret.
  destruct (blocks w1 !! h) as [b1|], (blocks w2 !! h) as [b2|];
    simpl in *; congruence.
Qed.

(** X12.  [SetImageDataBlockData] on a live block writes the [pData]
    field of that block and nothing else: the image size every handle
    reports is as before, the image data of every other handle is as
    before, and bytes, statics and trace are untouched.  The pointer is
    stored, not followed. *)
Theorem SetImageDataBlockData_frame (w : World) (h p : ptr)
    (b : ImageDataBlockWrapper) :
  h ≠ NULL -> blocks w !! h = Some b ->
  exists w', Simple.SetImageDataBlockData h p w = Some (tt, w') /\
    (forall h2,
       returns (Simple.GetImageDataBlockImageSize h2) w'
         = returns (Simple.GetImageDataBlockImageSize h2) w) /\
    (forall h2, h2 ≠ h ->
       returns (Simple.GetImageDataBlockImageData h2) w'
         = returns (Simple.GetImageDataBlockImageData h2) w) /\
    blocks w' !! h
      = Some (mkBlock (frameNo b) (size b) p (imageSize b) (timeCode b)) /\
    (forall h2, h2 ≠ h -> blocks w' !! h2 = blocks w !! h2) /\
    bytes w' = bytes w /\ hSonyDll w' = hSonyDll w /\
    pGetLiveViewImage w' = pGetLiveViewImage w /\ trace w' = trace w.
Proof.
  intros Hh Hb.
  destruct (@Linked_setters_live (mirror idle) w h b Hh Hb) as [_ Hset].
  eexists. split; [apply Hset|]. simpl. split_and!; try done.
  - intros h2. apply size_getter_agrees. simpl.
    destruct (decide (h = h2)) as [<-|Hne].
    + now rewrite lookup_insert_eq, Hb.
    + now rewrite lookup_insert_ne.
  - intros h2 Hne. apply data_getter_agrees. simpl.
    now rewrite lookup_insert_ne.
  - apply lookup_insert_eq.
  - intros h2 Hne. now apply lookup_insert_ne.
Qed.

Lemma SetImageDataBlockData_frame_witness :
  (1 ≠ NULL /\
   blocks (Fixtures.one_block (mkBlock 3 100 0 5 7)) !! 1
     = Some (mkBlock 3 100 0 5 7)) /\
  exists w',
    Simple.SetImageDataBlockData 1 4096
      (Fixtures.one_block (mkBlock 3 100 0 5 7)) = Some (tt, w') /\
    blocks w' !! 1 = Some (mkBlock 3 100 4096 5 7).
Proof.
  assert (H1 : 1 ≠ NULL) by (unfold NULL; lia).
  assert (H2 : blocks (Fixtures.one_block (mkBlock 3 100 0 5 7)) !! 1
               = Some (mkBlock 3 100 0 5 7)) by reflexivity.
  split; [now split|].
  destruct (SetImageDataBlockData_frame _ 1 4096 _ H1 H2)
    as (w' & E & _ & _ & Hb & _).
  exists w'. split; [exact E|exact Hb].
Defined.
